(** * The onboarding stepper of [VoidOnboarding.tsx]

    A shallow embedding of the React component [VoidOnboardingContent] and of
    the form components it mounts.  The hooks of the component become fields
    of a record, every event handler becomes a function on that record, the
    two object literals [signInStepperFlow] and [signUpStepperFlow] become
    finite maps from page index to screen, and [setTimeout] becomes a queue
    of pending tasks ordered by due time.

    Conventions.
    - A React state setter is applied in program order; the updates of one
      handler (or one timer callback) are committed together, after which
      the keyed subtree is remounted when its key changed.
    - Closures handed to children ([onSuccess], [onClick]) are first-order
      values of type [VoidFunction].
    - Purely visual state ([showPassword], fade-in opacity, class names) is
      left out: no handler reads it. *)

From stdpp Require Import base gmap strings.
From Stdlib Require Import ZArith List Bool Lia.
Import ListNotations.
Open Scope Z_scope.

(** ** Types of the source *)

(** [type StepperFlowType = 'signIn' | 'signUp'] *)
Inductive StepperFlowType := signIn | signUp.

(** [type WantToUseOption = 'smart' | 'private' | 'cheap' | 'all'] *)
Inductive WantToUseOption := smart | private | cheap | all.

(** [ProviderName] is imported from [voidSettingsTypes.js]; here the name
    of the provider as a string. *)
Definition ProviderName := string.

(** The argument of a [useState] setter: a value, or an updater of the
    previous value. *)
Inductive SetStateAction (A : Type) :=
| Value (a : A)
| Updater (f : A -> A).
Arguments Value {A} a.
Arguments Updater {A} f.

Definition resolve {A : Type} (act : SetStateAction A) (prev : A) : A :=
  match act with
  | Value a => a
  | Updater f => f prev
  end.

(** The closures the tables pass as [onSuccess]: [() => setPageIndex(idx)]. *)
Inductive VoidFunction :=
| GoToPage (idx : Z).

(** ** Screens *)

Inductive PageContent :=
| WelcomeContent                                   (* headline and the Login/Signup button *)
| LoginPage                                        (* <LoginPage setPageType setPageIndex /> *)
| ResetPasswordPage (onSuccess : VoidFunction)
| OTPPasswordPage (email : string) (onSuccess : VoidFunction)
| CreatePasswordPage (onSuccess : VoidFunction)
| SignUpPage (onSuccess : VoidFunction)            (* also receives setPageIndex *)
| SettingsAndThemes.                               (* the settings-import screen *)

Inductive BottomContent :=
| prevButton                   (* <PrevButton onClick={() => setPageIndex(idx => idx - 1)} /> *)
| returnToSignInButton         (* <PrevButton onClick={() => setPageIndex(1)} /> *)
| lastPagePrevAndNextButtons.  (* the "Enter the Evolv" primary action *)

Inductive PageShell := OnboardingPageShell | OnboardingFormPageShell.

Record ReactNode := {
  shell : PageShell;
  title : option string;
  content : PageContent;
  bottom : option BottomContent
}.

(** [type StepperPages = { [pageIndex: number]: React.ReactNode }] *)
Abbreviation StepperPages := (gmap Z ReactNode).

Definition renderLastStep : ReactNode :=
  {| shell := OnboardingPageShell; title := None;
     content := SettingsAndThemes; bottom := Some lastPagePrevAndNextButtons |}.

Definition stepperFlowStartingPoint : StepperPages :=
  <[ 1 := {| shell := OnboardingFormPageShell; title := Some "Sign in"%string;
             content := LoginPage; bottom := None |} ]>
  (<[ 0 := {| shell := OnboardingPageShell; title := None;
              content := WelcomeContent; bottom := None |} ]> ∅).

Definition signInStepperFlow : StepperPages :=
  <[ 6 := renderLastStep ]>
  (<[ 5 := {| shell := OnboardingFormPageShell; title := Some "Check your email"%string;
              content := OTPPasswordPage "test_verify_code@proton.com" (GoToPage 6);
              bottom := Some returnToSignInButton |} ]>
  (<[ 4 := {| shell := OnboardingFormPageShell; title := Some "Create new password"%string;
              content := CreatePasswordPage (GoToPage 6);
              bottom := Some prevButton |} ]>
  (<[ 3 := {| shell := OnboardingFormPageShell; title := Some "Check your email"%string;
              content := OTPPasswordPage "test@proton.com" (GoToPage 4);
              bottom := Some prevButton |} ]>
  (<[ 2 := {| shell := OnboardingFormPageShell; title := Some "Enter your email"%string;
              content := ResetPasswordPage (GoToPage 3);
              bottom := Some prevButton |} ]>
   stepperFlowStartingPoint)))).

Definition signUpStepperFlow : StepperPages :=
  <[ 4 := renderLastStep ]>
  (<[ 3 := {| shell := OnboardingFormPageShell; title := Some "Create password"%string;
              content := CreatePasswordPage (GoToPage 4);
              bottom := Some prevButton |} ]>
  (<[ 2 := {| shell := OnboardingFormPageShell; title := Some "Sign up"%string;
              content := SignUpPage (GoToPage 3);
              bottom := Some prevButton |} ]>
   stepperFlowStartingPoint)).

(** ** State *)

(** The work left of an [async] handler after its
    [await new Promise((resolve) => setTimeout(resolve, 1500))]. *)
Inductive Task :=
| LoginSubmitResume                          (* rest of LoginPage.submitForm *)
| FormSubmitResume (onSuccess : VoidFunction). (* rest of the other submitForm *)

(** A pending timeout: when it is due, which mounted instance of the keyed
    subtree scheduled it, and what it runs. *)
Record Timer := { due : Z; owner : nat; task : Task }.

(** The properties of the 'Completed Onboarding' event. *)
Record MetricsEvent := {
  eventName : string;
  prop_selectedProviderName : ProviderName;
  prop_wantToUseOption : WantToUseOption
}.

Record World := {
  (* hooks of VoidOnboardingContent *)
  pageIndex : Z;
  stepperType : StepperFlowType;
  wantToUseOption : WantToUseOption;
  selectedIntelligentProvider : ProviderName;
  selectedPrivateProvider : ProviderName;
  selectedAffordableProvider : ProviderName;
  selectedAllProvider : ProviderName;
  (* the services behind useAccessor *)
  isOnboardingComplete : bool;      (* globalSettings.isOnboardingComplete *)
  captured : list MetricsEvent;     (* calls of voidMetricsService.capture, oldest first *)
  (* hooks of the screen mounted under key `${stepperType}-${pageIndex}` *)
  mountId : nat;
  isSubmitting : bool;
  error : string;
  otp : string;
  (* the event loop *)
  now : Z;
  timers : list Timer;
  (* instrumentation: how often a submission's continuation ran *)
  continuationCalls : nat
}.

Definition initialWorld (complete : bool) : World :=
  {| pageIndex := 0; stepperType := signIn; wantToUseOption := smart;
     selectedIntelligentProvider := "anthropic"; selectedPrivateProvider := "ollama";
     selectedAffordableProvider := "gemini"; selectedAllProvider := "anthropic";
     isOnboardingComplete := complete; captured := [];
     mountId := 0; isSubmitting := false; error := ""; otp := "";
     now := 0; timers := []; continuationCalls := 0 |}.

(** ** Field updates

    One function per field; every other field is kept. *)

Definition with_pageIndex (v : Z) (w : World) : World :=
  {| pageIndex := v; stepperType := stepperType w; wantToUseOption := wantToUseOption w;
     selectedIntelligentProvider := selectedIntelligentProvider w; selectedPrivateProvider :=
     selectedPrivateProvider w; selectedAffordableProvider := selectedAffordableProvider w;
     selectedAllProvider := selectedAllProvider w; isOnboardingComplete :=
     isOnboardingComplete w; captured := captured w; mountId := mountId w; isSubmitting :=
     isSubmitting w; error := error w; otp := otp w; now := now w; timers := timers w;
     continuationCalls := continuationCalls w |}.

Definition with_stepperType (v : StepperFlowType) (w : World) : World :=
  {| pageIndex := pageIndex w; stepperType := v; wantToUseOption := wantToUseOption w;
     selectedIntelligentProvider := selectedIntelligentProvider w; selectedPrivateProvider :=
     selectedPrivateProvider w; selectedAffordableProvider := selectedAffordableProvider w;
     selectedAllProvider := selectedAllProvider w; isOnboardingComplete :=
     isOnboardingComplete w; captured := captured w; mountId := mountId w; isSubmitting :=
     isSubmitting w; error := error w; otp := otp w; now := now w; timers := timers w;
     continuationCalls := continuationCalls w |}.

Definition with_wantToUseOption (v : WantToUseOption) (w : World) : World :=
  {| pageIndex := pageIndex w; stepperType := stepperType w; wantToUseOption := v;
     selectedIntelligentProvider := selectedIntelligentProvider w; selectedPrivateProvider :=
     selectedPrivateProvider w; selectedAffordableProvider := selectedAffordableProvider w;
     selectedAllProvider := selectedAllProvider w; isOnboardingComplete :=
     isOnboardingComplete w; captured := captured w; mountId := mountId w; isSubmitting :=
     isSubmitting w; error := error w; otp := otp w; now := now w; timers := timers w;
     continuationCalls := continuationCalls w |}.

Definition with_selectedIntelligentProvider (v : ProviderName) (w : World) : World :=
  {| pageIndex := pageIndex w; stepperType := stepperType w; wantToUseOption :=
     wantToUseOption w; selectedIntelligentProvider := v; selectedPrivateProvider :=
     selectedPrivateProvider w; selectedAffordableProvider := selectedAffordableProvider w;
     selectedAllProvider := selectedAllProvider w; isOnboardingComplete :=
     isOnboardingComplete w; captured := captured w; mountId := mountId w; isSubmitting :=
     isSubmitting w; error := error w; otp := otp w; now := now w; timers := timers w;
     continuationCalls := continuationCalls w |}.

Definition with_selectedPrivateProvider (v : ProviderName) (w : World) : World :=
  {| pageIndex := pageIndex w; stepperType := stepperType w; wantToUseOption :=
     wantToUseOption w; selectedIntelligentProvider := selectedIntelligentProvider w;
     selectedPrivateProvider := v; selectedAffordableProvider := selectedAffordableProvider
     w; selectedAllProvider := selectedAllProvider w; isOnboardingComplete :=
     isOnboardingComplete w; captured := captured w; mountId := mountId w; isSubmitting :=
     isSubmitting w; error := error w; otp := otp w; now := now w; timers := timers w;
     continuationCalls := continuationCalls w |}.

Definition with_selectedAffordableProvider (v : ProviderName) (w : World) : World :=
  {| pageIndex := pageIndex w; stepperType := stepperType w; wantToUseOption :=
     wantToUseOption w; selectedIntelligentProvider := selectedIntelligentProvider w;
     selectedPrivateProvider := selectedPrivateProvider w; selectedAffordableProvider := v;
     selectedAllProvider := selectedAllProvider w; isOnboardingComplete :=
     isOnboardingComplete w; captured := captured w; mountId := mountId w; isSubmitting :=
     isSubmitting w; error := error w; otp := otp w; now := now w; timers := timers w;
     continuationCalls := continuationCalls w |}.

Definition with_selectedAllProvider (v : ProviderName) (w : World) : World :=
  {| pageIndex := pageIndex w; stepperType := stepperType w; wantToUseOption :=
     wantToUseOption w; selectedIntelligentProvider := selectedIntelligentProvider w;
     selectedPrivateProvider := selectedPrivateProvider w; selectedAffordableProvider :=
     selectedAffordableProvider w; selectedAllProvider := v; isOnboardingComplete :=
     isOnboardingComplete w; captured := captured w; mountId := mountId w; isSubmitting :=
     isSubmitting w; error := error w; otp := otp w; now := now w; timers := timers w;
     continuationCalls := continuationCalls w |}.

Definition with_isOnboardingComplete (v : bool) (w : World) : World :=
  {| pageIndex := pageIndex w; stepperType := stepperType w; wantToUseOption :=
     wantToUseOption w; selectedIntelligentProvider := selectedIntelligentProvider w;
     selectedPrivateProvider := selectedPrivateProvider w; selectedAffordableProvider :=
     selectedAffordableProvider w; selectedAllProvider := selectedAllProvider w;
     isOnboardingComplete := v; captured := captured w; mountId := mountId w; isSubmitting :=
     isSubmitting w; error := error w; otp := otp w; now := now w; timers := timers w;
     continuationCalls := continuationCalls w |}.

Definition with_captured (v : list MetricsEvent) (w : World) : World :=
  {| pageIndex := pageIndex w; stepperType := stepperType w; wantToUseOption :=
     wantToUseOption w; selectedIntelligentProvider := selectedIntelligentProvider w;
     selectedPrivateProvider := selectedPrivateProvider w; selectedAffordableProvider :=
     selectedAffordableProvider w; selectedAllProvider := selectedAllProvider w;
     isOnboardingComplete := isOnboardingComplete w; captured := v; mountId := mountId w;
     isSubmitting := isSubmitting w; error := error w; otp := otp w; now := now w; timers :=
     timers w; continuationCalls := continuationCalls w |}.

Definition with_mountId (v : nat) (w : World) : World :=
  {| pageIndex := pageIndex w; stepperType := stepperType w; wantToUseOption :=
     wantToUseOption w; selectedIntelligentProvider := selectedIntelligentProvider w;
     selectedPrivateProvider := selectedPrivateProvider w; selectedAffordableProvider :=
     selectedAffordableProvider w; selectedAllProvider := selectedAllProvider w;
     isOnboardingComplete := isOnboardingComplete w; captured := captured w; mountId := v;
     isSubmitting := isSubmitting w; error := error w; otp := otp w; now := now w; timers :=
     timers w; continuationCalls := continuationCalls w |}.

Definition with_isSubmitting (v : bool) (w : World) : World :=
  {| pageIndex := pageIndex w; stepperType := stepperType w; wantToUseOption :=
     wantToUseOption w; selectedIntelligentProvider := selectedIntelligentProvider w;
     selectedPrivateProvider := selectedPrivateProvider w; selectedAffordableProvider :=
     selectedAffordableProvider w; selectedAllProvider := selectedAllProvider w;
     isOnboardingComplete := isOnboardingComplete w; captured := captured w; mountId :=
     mountId w; isSubmitting := v; error := error w; otp := otp w; now := now w; timers :=
     timers w; continuationCalls := continuationCalls w |}.

Definition with_error (v : string) (w : World) : World :=
  {| pageIndex := pageIndex w; stepperType := stepperType w; wantToUseOption :=
     wantToUseOption w; selectedIntelligentProvider := selectedIntelligentProvider w;
     selectedPrivateProvider := selectedPrivateProvider w; selectedAffordableProvider :=
     selectedAffordableProvider w; selectedAllProvider := selectedAllProvider w;
     isOnboardingComplete := isOnboardingComplete w; captured := captured w; mountId :=
     mountId w; isSubmitting := isSubmitting w; error := v; otp := otp w; now := now w;
     timers := timers w; continuationCalls := continuationCalls w |}.

Definition with_otp (v : string) (w : World) : World :=
  {| pageIndex := pageIndex w; stepperType := stepperType w; wantToUseOption :=
     wantToUseOption w; selectedIntelligentProvider := selectedIntelligentProvider w;
     selectedPrivateProvider := selectedPrivateProvider w; selectedAffordableProvider :=
     selectedAffordableProvider w; selectedAllProvider := selectedAllProvider w;
     isOnboardingComplete := isOnboardingComplete w; captured := captured w; mountId :=
     mountId w; isSubmitting := isSubmitting w; error := error w; otp := v; now := now w;
     timers := timers w; continuationCalls := continuationCalls w |}.

Definition with_now (v : Z) (w : World) : World :=
  {| pageIndex := pageIndex w; stepperType := stepperType w; wantToUseOption :=
     wantToUseOption w; selectedIntelligentProvider := selectedIntelligentProvider w;
     selectedPrivateProvider := selectedPrivateProvider w; selectedAffordableProvider :=
     selectedAffordableProvider w; selectedAllProvider := selectedAllProvider w;
     isOnboardingComplete := isOnboardingComplete w; captured := captured w; mountId :=
     mountId w; isSubmitting := isSubmitting w; error := error w; otp := otp w; now := v;
     timers := timers w; continuationCalls := continuationCalls w |}.

Definition with_timers (v : list Timer) (w : World) : World :=
  {| pageIndex := pageIndex w; stepperType := stepperType w; wantToUseOption :=
     wantToUseOption w; selectedIntelligentProvider := selectedIntelligentProvider w;
     selectedPrivateProvider := selectedPrivateProvider w; selectedAffordableProvider :=
     selectedAffordableProvider w; selectedAllProvider := selectedAllProvider w;
     isOnboardingComplete := isOnboardingComplete w; captured := captured w; mountId :=
     mountId w; isSubmitting := isSubmitting w; error := error w; otp := otp w; now := now w;
     timers := v; continuationCalls := continuationCalls w |}.

Definition with_continuationCalls (v : nat) (w : World) : World :=
  {| pageIndex := pageIndex w; stepperType := stepperType w; wantToUseOption :=
     wantToUseOption w; selectedIntelligentProvider := selectedIntelligentProvider w;
     selectedPrivateProvider := selectedPrivateProvider w; selectedAffordableProvider :=
     selectedAffordableProvider w; selectedAllProvider := selectedAllProvider w;
     isOnboardingComplete := isOnboardingComplete w; captured := captured w; mountId :=
     mountId w; isSubmitting := isSubmitting w; error := error w; otp := otp w; now := now w;
     timers := timers w; continuationCalls := v |}.

(** ** Equality tests *)

Definition StepperFlowType_eqb (a b : StepperFlowType) : bool :=
  match a, b with
  | signIn, signIn | signUp, signUp => true
  | _, _ => false
  end.

(** ** The state setters of [VoidOnboardingContent] *)

Definition setPageIndex (act : SetStateAction Z) (w : World) : World :=
  with_pageIndex (resolve act (pageIndex w)) w.

Definition setStepperType (t : StepperFlowType) (w : World) : World :=
  with_stepperType t w.

(** [const setPageType = (stepperType) => { setStepperType(stepperType);
    setPageIndex(pageIdx => pageIdx + 1) }] *)
Definition setPageType (t : StepperFlowType) (w : World) : World :=
  setPageIndex (Updater (fun pageIdx => pageIdx + 1)) (setStepperType t w).

(** [getSelectedProvider]: the slot of the active intent category. *)
Definition getSelectedProvider (w : World) : ProviderName :=
  match wantToUseOption w with
  | smart => selectedIntelligentProvider w
  | private => selectedPrivateProvider w
  | cheap => selectedAffordableProvider w
  | all => selectedAllProvider w
  end.

Definition setSelectedProvider (provider : ProviderName) (w : World) : World :=
  match wantToUseOption w with
  | smart => with_selectedIntelligentProvider provider w
  | private => with_selectedPrivateProvider provider w
  | cheap => with_selectedAffordableProvider provider w
  | all => with_selectedAllProvider provider w
  end.

(** ** Rendering

    [stepperType === 'signIn' ? signInStepperFlow[pageIndex]
                              : signUpStepperFlow[pageIndex]];
    [None] is JavaScript's [undefined], which React renders as nothing. *)
Definition lookupPage (t : StepperFlowType) (idx : Z) : option ReactNode :=
  match t with
  | signIn => signInStepperFlow !! idx
  | signUp => signUpStepperFlow !! idx
  end.

Definition render (w : World) : option ReactNode :=
  lookupPage (stepperType w) (pageIndex w).

(** ** Remount by key

    The root [div] carries [key={`${stepperType}-${pageIndex}`}]: when the
    key of the committed render differs from the previous one, the subtree
    is unmounted and a fresh one mounted, with fresh hooks.  The only mount
    effect of a screen, the one of [OTPPasswordPage], sees [otp = ''] and
    does nothing. *)
Definition sameKey (a b : World) : bool :=
  StepperFlowType_eqb (stepperType a) (stepperType b) && (pageIndex a =? pageIndex b).

Definition remount (w : World) : World :=
  with_otp "" (with_error "" (with_isSubmitting false (with_mountId (S (mountId w)) w))).

Definition commit (before after : World) : World :=
  if sameKey before after then after else remount after.

(** Setters of the mounted screen.  A timer callback that outlives its
    screen calls the setter of an unmounted instance, which React ignores. *)
Definition setIsSubmitting (inst : nat) (b : bool) (w : World) : World :=
  if Nat.eqb inst (mountId w) then with_isSubmitting b w else w.

Definition setError (inst : nat) (s : string) (w : World) : World :=
  if Nat.eqb inst (mountId w) then with_error s w else w.

Definition setOtp (inst : nat) (s : string) (w : World) : World :=
  if Nat.eqb inst (mountId w) then with_otp s w else w.

(** ** Timers *)

(** Timers fire by due time, and in creation order when due together. *)
Fixpoint enqueue (tm : Timer) (q : list Timer) : list Timer :=
  match q with
  | [] => [tm]
  | x :: q' => if due x <=? due tm then x :: enqueue tm q' else tm :: q
  end.

Definition setTimeout (ms : Z) (k : Task) (w : World) : World :=
  with_timers (enqueue {| due := now w + ms; owner := mountId w; task := k |} (timers w)) w.

(** Calling a caller-supplied continuation. *)
Definition call (f : VoidFunction) (w : World) : World :=
  match f with
  | GoToPage idx => setPageIndex (Value idx) w
  end.

Definition countContinuation (w : World) : World :=
  with_continuationCalls (S (continuationCalls w)) w.

(** ** Form handlers

    Each [submitForm] is an [async] function: the part before the [await]
    runs in the submit event, the part after it when the 1500 ms timeout
    fires.  The browser calls [onSubmit] only after the constraints of the
    inputs ([required], [minLength], [pattern]) hold; the handlers themselves
    accept every value. *)

(** [LoginPage.submitForm] *)
Definition LoginPage_submitForm (email password : string) (w : World) : World :=
  setTimeout 1500 LoginSubmitResume (setIsSubmitting (mountId w) true w).

Definition LoginPage_submitForm_resume (inst : nat) (w : World) : World :=
  setIsSubmitting inst false
    (setPageIndex (Value 6) (setPageType signIn (countContinuation w))).

(** [SignUpPage.submitForm] *)
Definition SignUpPage_submitForm (onSuccess : VoidFunction)
    (firstName lastName : string) (w : World) : World :=
  setTimeout 1500 (FormSubmitResume onSuccess) (setIsSubmitting (mountId w) true w).

(** [ResetPasswordPage.submitForm] *)
Definition ResetPasswordPage_submitForm (onSuccess : VoidFunction)
    (email : string) (w : World) : World :=
  setTimeout 1500 (FormSubmitResume onSuccess) (setIsSubmitting (mountId w) true w).

(** [CreatePasswordPage.submitForm] *)
Definition CreatePasswordPage_submitForm (onSuccess : VoidFunction)
    (password confirmPassword : string) (w : World) : World :=
  let w1 := setError (mountId w) "" w in
  if negb (String.eqb password confirmPassword) then
    setError (mountId w) "Passwords do not match" w1
  else
    setTimeout 1500 (FormSubmitResume onSuccess) (setIsSubmitting (mountId w) true w1).

(** The part [onSuccess(); setIsSubmitting(false)] shared by the three. *)
Definition submitForm_resume (onSuccess : VoidFunction) (inst : nat) (w : World) : World :=
  setIsSubmitting inst false (call onSuccess (countContinuation w)).

(** [OTPPasswordPage]: [useEffect(() => { if (otp.length === 6) { ...
    onSuccess && onSuccess() } }, [otp])]. *)
Definition OTPPasswordPage_effect (onSuccess : VoidFunction) (w : World) : World :=
  if (String.length (otp w) =? 6)%nat then call onSuccess (countContinuation w) else w.

(** [onChange={setOtp}]: an equal value is no state change, hence no render
    and no effect; a new value is rendered and the effect on [otp] runs. *)
Definition OTPPasswordPage_onChange (onSuccess : VoidFunction) (value : string)
    (w : World) : World :=
  if String.eqb (otp w) value then w
  else OTPPasswordPage_effect onSuccess (setOtp (mountId w) value w).

(** ** The completion action and the effect on the completion flag *)

(** [useEffect(() => { if (!isOnboardingComplete) setPageIndex(0) },
    [setPageIndex, isOnboardingComplete])] *)
Definition onboardingCompleteEffect (w : World) : World :=
  if negb (isOnboardingComplete w) then setPageIndex (Value 0) w else w.

(** A write of [globalSettings.isOnboardingComplete]; the effect above runs
    when the value it depends on changed. *)
Definition setGlobalSetting_isOnboardingComplete (b : bool) (w : World) : World :=
  let w' := with_isOnboardingComplete b w in
  if Bool.eqb (isOnboardingComplete w) b then w' else onboardingCompleteEffect w'.

Definition capture (name : string) (provider : ProviderName) (opt : WantToUseOption)
    (w : World) : World :=
  with_captured (captured w ++ [{| eventName := name;
                                   prop_selectedProviderName := provider;
                                   prop_wantToUseOption := opt |}]) w.

(** The [onClick] of the primary button of [lastPagePrevAndNextButtons];
    [selectedProviderName] and [wantToUseOption] are those of the render the
    closure was created in. *)
Definition completeOnboarding (w : World) : World :=
  let selectedProviderName := getSelectedProvider w in
  let opt := wantToUseOption w in
  capture "Completed Onboarding" selectedProviderName opt
    (setGlobalSetting_isOnboardingComplete true w).

(** ** Events

    What the user can do on a screen; an event that the rendered screen
    does not offer changes nothing. *)
Inductive Event :=
| ClickLoginSignup                                   (* welcome: setPageIndex(1) *)
| SubmitLogin (email password : string)              (* login form *)
| ClickForgotPassword                                (* setPageType('signIn'); setPageIndex(2) *)
| ClickEmailSignInCode                               (* setPageIndex(5) *)
| ClickSignUp                                        (* setPageType('signUp') *)
| SubmitResetPassword (email : string)
| ChangeOtp (value : string)
| SubmitCreatePassword (password confirmPassword : string)
| SubmitSignUp (firstName lastName : string)
| ClickSignIn                                        (* sign-up page: setPageIndex(1) *)
| ClickBottom.                                       (* the button of the bottom slot *)

Definition handleBottom (b : option BottomContent) (w : World) : World :=
  match b with
  | Some prevButton => setPageIndex (Updater (fun idx => idx - 1)) w
  | Some returnToSignInButton => setPageIndex (Value 1) w
  | Some lastPagePrevAndNextButtons => completeOnboarding w
  | None => w
  end.

Definition handle (node : ReactNode) (ev : Event) (w : World) : World :=
  match ev, content node with
  | ClickLoginSignup, WelcomeContent => setPageIndex (Value 1) w
  | SubmitLogin email password, LoginPage => LoginPage_submitForm email password w
  | ClickForgotPassword, LoginPage => setPageIndex (Value 2) (setPageType signIn w)
  | ClickEmailSignInCode, LoginPage => setPageIndex (Value 5) w
  | ClickSignUp, LoginPage => setPageType signUp w
  | SubmitResetPassword email, ResetPasswordPage onSuccess =>
      ResetPasswordPage_submitForm onSuccess email w
  | ChangeOtp value, OTPPasswordPage _ onSuccess =>
      OTPPasswordPage_onChange onSuccess value w
  | SubmitCreatePassword password confirmPassword, CreatePasswordPage onSuccess =>
      CreatePasswordPage_submitForm onSuccess password confirmPassword w
  | SubmitSignUp firstName lastName, SignUpPage onSuccess =>
      SignUpPage_submitForm onSuccess firstName lastName w
  | ClickSignIn, SignUpPage _ => setPageIndex (Value 1) w
  | ClickBottom, _ => handleBottom (bottom node) w
  | _, _ => w
  end.

Definition dispatch (ev : Event) (w : World) : World :=
  match render w with
  | Some node => commit w (handle node ev w)
  | None => w
  end.

(** ** Time *)

Definition runTask (tm : Timer) (w : World) : World :=
  match task tm with
  | LoginSubmitResume => commit w (LoginPage_submitForm_resume (owner tm) w)
  | FormSubmitResume onSuccess => commit w (submitForm_resume onSuccess (owner tm) w)
  end.

(** Let [dt] milliseconds pass: the timers due by then fire in queue order. *)
Definition advance (dt : Z) (w : World) : World :=
  let t := now w + dt in
  let ready := List.filter (fun tm => due tm <=? t) (timers w) in
  let waiting := List.filter (fun tm => negb (due tm <=? t)) (timers w) in
  fold_left (fun acc tm => runTask tm acc) ready (with_now t (with_timers waiting w)).

(** An external write of the completion flag (the settings service is owned
    elsewhere), followed by the commit of what the effect did. *)
Definition externalSetOnboardingComplete (b : bool) (w : World) : World :=
  commit w (setGlobalSetting_isOnboardingComplete b w).

Inductive Action :=
| UI (ev : Event)
| Wait (dt : Z)
| ExternalSet (b : bool).

Definition step (a : Action) (w : World) : World :=
  match a with
  | UI ev => dispatch ev w
  | Wait dt => advance dt w
  | ExternalSet b => externalSetOnboardingComplete b w
  end.

Definition run (actions : list Action) (w : World) : World :=
  fold_left (fun acc a => step a acc) actions w.

(** A world is reachable when some actions lead to it from the first mount
    with the completion flag unset. *)
Definition reachable (w : World) : Prop :=
  exists actions, run actions (initialWorld false) = w.

(** ** The provider-setup screen

    [AddProvidersPage] takes [pageIndex] and [setPageIndex] as props and keeps
    [errorMessage] and [currentTab] itself.  [isFeatureNameDisabled] and the
    settings state come from [voidSettingsTypes.js] and the settings service,
    which are outside this file: they are parameters of the section. *)
Module AddProviders.

Inductive TabName := Free | Paid | Local | CloudOther.

Inductive FeatureName := Chat | CtrlK | Autocomplete | Apply | SCM.

Section WithSettings.

Variable SettingsState : Type.
Variable isFeatureNameDisabled : FeatureName -> SettingsState -> bool.

Record State := {
  pageIndex : Z;                  (* the prop, owned by the parent *)
  settingsState : SettingsState;  (* useSettingsState() *)
  currentTab : TabName;
  errorMessage : option string;   (* None is null *)
  now : Z;
  timeoutId : option Z            (* due time of the pending timeout of the effect *)
}.

Definition initialState (idx : Z) (st : SettingsState) : State :=
  {| pageIndex := idx; settingsState := st; currentTab := Free;
     errorMessage := None; now := 0; timeoutId := None |}.

Definition setPageIndex (idx : Z) (s : State) : State :=
  {| pageIndex := idx; settingsState := settingsState s; currentTab := currentTab s;
     errorMessage := errorMessage s; now := now s; timeoutId := timeoutId s |}.

Definition setCurrentTab (tab : TabName) (s : State) : State :=
  {| pageIndex := pageIndex s; settingsState := settingsState s; currentTab := tab;
     errorMessage := errorMessage s; now := now s; timeoutId := timeoutId s |}.

(** JavaScript truthiness of [string | null]. *)
Definition truthy (m : option string) : bool :=
  match m with
  | Some s => negb (String.eqb s "")
  | None => false
  end.

Definition sameMessage (a b : option string) : bool :=
  match a, b with
  | Some x, Some y => String.eqb x y
  | None, None => true
  | _, _ => false
  end.

(** [setErrorMessage] followed by the effect on [errorMessage]: an equal
    value is no state change; otherwise the cleanup clears the pending
    timeout and, when the new message is truthy, a timeout of 5000 ms is
    set. *)
Definition setErrorMessage (m : option string) (s : State) : State :=
  if sameMessage (errorMessage s) m then s
  else {| pageIndex := pageIndex s; settingsState := settingsState s;
          currentTab := currentTab s; errorMessage := m; now := now s;
          timeoutId := if truthy m then Some (now s + 5000) else None |}.

Definition errorText : string :=
  "Please set up at least one Chat model before moving on.".

(** The [onClick] of [NextButton]. *)
Definition nextClick (s : State) : State :=
  let isDisabled := isFeatureNameDisabled Chat (settingsState s) in
  if negb isDisabled then
    setErrorMessage None (setPageIndex (pageIndex s + 1) s)
  else
    setErrorMessage (Some errorText) s.

(** The [onClick] of [PreviousButton]. *)
Definition previousClick (s : State) : State :=
  setPageIndex (pageIndex s - 1) s.

(** The [onClick] of a tab. *)
Definition tabClick (tab : TabName) (s : State) : State :=
  setErrorMessage None (setCurrentTab tab s).

(** Let [dt] milliseconds pass; a due timeout runs [setErrorMessage(null)]. *)
Definition advance (dt : Z) (s : State) : State :=
  let s' := {| pageIndex := pageIndex s; settingsState := settingsState s;
               currentTab := currentTab s; errorMessage := errorMessage s;
               now := now s + dt; timeoutId := timeoutId s |} in
  match timeoutId s with
  | Some d =>
      if d <=? now s + dt then
        setErrorMessage None
          {| pageIndex := pageIndex s; settingsState := settingsState s;
             currentTab := currentTab s; errorMessage := errorMessage s;
             now := now s + dt; timeoutId := None |}
      else s'
  | None => s'
  end.

End WithSettings.

Arguments pageIndex {SettingsState} s.
Arguments settingsState {SettingsState} s.
Arguments currentTab {SettingsState} s.
Arguments errorMessage {SettingsState} s.
Arguments now {SettingsState} s.
Arguments timeoutId {SettingsState} s.
Arguments initialState {SettingsState} idx st.
Arguments setPageIndex {SettingsState} idx s.
Arguments setErrorMessage {SettingsState} m s.
Arguments nextClick {SettingsState} isFeatureNameDisabled s.
Arguments previousClick {SettingsState} s.
Arguments tabClick {SettingsState} tab s.
Arguments advance {SettingsState} dt s.

End AddProviders.

(** ** The earlier revision of the tables

    [src/unnamed/part_000] is an earlier revision of the same component.  Its
    tables are sparse: the settings-import screen sits at index 9 of the
    sign-up table only, and the forms have no submit handler yet. *)
Module Part000.

Inductive PageContent :=
| WelcomeContent
| LoginPage                      (* <LoginPage setPageType /> *)
| SignInPasswordPage             (* <SignInPasswordPage setPageIndex={setStep} /> *)
| ResetPasswordPage
| CreatePasswordPage             (* receives pageIndex and setPageIndex *)
| ConfirmEmailPasswordPage       (* 'Enter the code sent to ...', six code boxes *)
| SignUpPage                     (* receives pageIndex and setPageIndex *)
| SettingsAndThemes.

Inductive BottomContent :=
| prevButton                     (* setPageIndex(idx => idx - 1) *)
| returnToSignInButton           (* setStep(2) *)
| lastPagePrevAndNextButtons.    (* Back, and the "Enter the Void" primary action *)

Record ReactNode := {
  shell : PageShell;
  title : option string;
  content : PageContent;
  bottom : option BottomContent
}.

Definition stepperFlowStartingPoint : gmap Z ReactNode :=
  <[ 1 := {| shell := OnboardingFormPageShell; title := Some "Sign in"%string;
             content := LoginPage; bottom := None |} ]>
  (<[ 0 := {| shell := OnboardingPageShell; title := None;
              content := WelcomeContent; bottom := None |} ]> ∅).

Definition signInStepperFlow : gmap Z ReactNode :=
  <[ 5 := {| shell := OnboardingFormPageShell; title := Some "Check your email"%string;
             content := ConfirmEmailPasswordPage; bottom := Some returnToSignInButton |} ]>
  (<[ 4 := {| shell := OnboardingFormPageShell; title := Some "Reset your password"%string;
              content := CreatePasswordPage; bottom := Some prevButton |} ]>
  (<[ 3 := {| shell := OnboardingFormPageShell; title := Some "Reset your password"%string;
              content := ResetPasswordPage; bottom := Some prevButton |} ]>
  (<[ 2 := {| shell := OnboardingFormPageShell; title := Some "Sign in"%string;
              content := SignInPasswordPage; bottom := Some prevButton |} ]>
   stepperFlowStartingPoint))).

Definition signUpStepperFlow : gmap Z ReactNode :=
  <[ 9 := {| shell := OnboardingPageShell; title := None;
             content := SettingsAndThemes; bottom := Some lastPagePrevAndNextButtons |} ]>
  (<[ 4 := {| shell := OnboardingFormPageShell; title := Some "Check your email"%string;
              content := ConfirmEmailPasswordPage; bottom := Some prevButton |} ]>
  (<[ 3 := {| shell := OnboardingFormPageShell; title := Some "Create password"%string;
              content := CreatePasswordPage; bottom := Some prevButton |} ]>
  (<[ 2 := {| shell := OnboardingFormPageShell; title := Some "Sign up"%string;
              content := SignUpPage; bottom := Some prevButton |} ]>
   stepperFlowStartingPoint))).

Definition lookupPage (t : StepperFlowType) (idx : Z) : option ReactNode :=
  match t with
  | signIn => signInStepperFlow !! idx
  | signUp => signUpStepperFlow !! idx
  end.

End Part000.

(** ** Paths and auxiliary definitions used by the properties *)

(** The last index with an entry in the table of a flow. *)
Definition lastIndex (t : StepperFlowType) : Z :=
  match t with
  | signIn => 6
  | signUp => 4
  end.

(** The actions that lead to the settings-import screen in each flow. *)
Definition signInPath : list Action :=
  [UI ClickLoginSignup; UI (SubmitLogin "user@example.com" "password1"); Wait 1500].

Definition signUpPath : list Action :=
  [UI ClickLoginSignup; UI ClickSignUp; UI (SubmitSignUp "Ada" "Lovelace"); Wait 1500;
   UI (SubmitCreatePassword "password1" "password1"); Wait 1500].

(** Entering the values [values] one after the other. *)
Definition typeOtp (values : list string) : list Action :=
  map (fun v => UI (ChangeOtp v)) values.

(** The task a well-formed submission schedules on the rendered screen;
    [None] when the screen does not offer the event or the submission is
    rejected by the handler. *)
Definition submitTask (node : ReactNode) (ev : Event) : option Task :=
  match ev, content node with
  | SubmitLogin _ _, LoginPage => Some LoginSubmitResume
  | SubmitResetPassword _, ResetPasswordPage f => Some (FormSubmitResume f)
  | SubmitSignUp _ _, SignUpPage f => Some (FormSubmitResume f)
  | SubmitCreatePassword p c, CreatePasswordPage f =>
      if String.eqb p c then Some (FormSubmitResume f) else None
  | _, _ => None
  end.

(** The actions that lead to a blank step: the credential screen is shared,
    so after "Sign up" and then "Sign in" the flow is still [signUp], and
    "Email sign-in code" sets the index to 5, which only the sign-in table
    defines. *)
Definition blankPath : list Action :=
  [UI ClickLoginSignup; UI ClickSignUp; UI ClickSignIn; UI ClickEmailSignInCode].

(** A settings state that only records whether a Chat model is missing. *)
Definition chatMissing (f : AddProviders.FeatureName) (st : bool) : bool :=
  match f with
  | AddProviders.Chat => st
  | _ => false
  end.

(** On an OTP screen the entered code is not complete: completing it leaves
    the screen. *)
Definition otpIncomplete (w : World) : Prop :=
  forall node email f,
    render w = Some node -> content node = OTPPasswordPage email f ->
    String.length (otp w) <> 6%nat.

(** ** The overlay

    [VoidOnboarding] renders the wizard under a full-screen overlay whose
    class is ['opacity-0 pointer-events-none'] when
    [isOnboardingComplete || OVERRIDE_VALUE] holds. *)
Definition OVERRIDE_VALUE : bool := false.

Definition overlayHidden (w : World) : bool :=
  isOnboardingComplete w || OVERRIDE_VALUE.

(** Actions of the user and of the clock, as opposed to writes of the
    settings service from elsewhere. *)
Definition isInternal (a : Action) : bool :=
  match a with
  | UI _ | Wait _ => true
  | ExternalSet _ => false
  end.

(** What the tables pass as [onSuccess] stays inside the sign-in table. *)
Definition taskInRange (k : Task) : Prop :=
  match k with
  | LoginSubmitResume => True
  | FormSubmitResume (GoToPage idx) => 0 <= idx <= 6
  end.

(** The page index and the pending continuations stay inside the keys of
    the sign-in table. *)
Definition inRange (w : World) : Prop :=
  0 <= pageIndex w <= 6 /\ Forall (fun tm => taskInRange (task tm)) (timers w).

(** A raised submitting flag is backed by a timeout in [l] that the mounted
    screen scheduled. *)
Definition backedBy (l : list Timer) (w : World) : Prop :=
  isSubmitting w = true -> exists tm, In tm l /\ owner tm = mountId w.

(** ** The provider tabs

    [providerNames] and [localProviderNames] come from
    [voidSettingsTypes.js]; they are parameters of the section. *)
Module ProviderTabs.

Section WithProviderNames.

Variable providerNames : list ProviderName.
Variable localProviderNames : list ProviderName.

Definition cloudProviders : list ProviderName :=
  ["googleVertex"; "liteLLM"; "microsoftAzure"; "awsBedrock"; "openAICompatible"]%string.

(** [Array.prototype.includes] on strings. *)
Definition includes (l : list string) (x : string) : bool :=
  existsb (String.eqb x) l.

Definition providerNamesOfTab (tab : AddProviders.TabName) : list ProviderName :=
  match tab with
  | AddProviders.Free => ["gemini"; "openRouter"]%string
  | AddProviders.Local => localProviderNames
  | AddProviders.Paid =>
      List.filter
        (fun pn => negb (includes (["gemini"; "openRouter"]%string
                                     ++ localProviderNames ++ cloudProviders) pn))
        providerNames
  | AddProviders.CloudOther => cloudProviders
  end.

End WithProviderNames.

End ProviderTabs.

(** ** Events of the provider-setup screen *)
Inductive ProvidersEvent :=
| ClickNext
| ClickPrevious
| ClickTab (tab : AddProviders.TabName)
| Idle (ms : N).                (* time passing with no input *)

Definition providersStep {SettingsState : Type}
    (isFeatureNameDisabled : AddProviders.FeatureName -> SettingsState -> bool)
    (ev : ProvidersEvent) (s : AddProviders.State SettingsState)
  : AddProviders.State SettingsState :=
  match ev with
  | ClickNext => AddProviders.nextClick isFeatureNameDisabled s
  | ClickPrevious => AddProviders.previousClick s
  | ClickTab tab => AddProviders.tabClick tab s
  | Idle ms => AddProviders.advance (Z.of_N ms) s
  end.

Definition providersRun {SettingsState : Type}
    (isFeatureNameDisabled : AddProviders.FeatureName -> SettingsState -> bool)
    (evs : list ProvidersEvent) (s : AddProviders.State SettingsState)
  : AddProviders.State SettingsState :=
  fold_left (fun acc ev => providersStep isFeatureNameDisabled ev acc) evs s.

(** The timeout of the effect is pending exactly while a message shows, and
    is due within 5000 ms. *)
Definition timeoutMatchesMessage {SettingsState : Type}
    (s : AddProviders.State SettingsState) : Prop :=
  match AddProviders.timeoutId s with
  | Some d =>
      AddProviders.truthy (AddProviders.errorMessage s) = true /\
      d <= AddProviders.now s + 5000
  | None => AddProviders.truthy (AddProviders.errorMessage s) = false
  end.

(** * Properties *)

(** ** The tables *)

Ltac split_index i :=
  repeat match goal with
  | H : context [ <[ ?k := _ ]> _ !! i ] |- _ =>
      destruct (decide (k = i)) as [<- | ?];
      [ rewrite lookup_insert_eq in H | rewrite lookup_insert_ne in H by assumption ]
  | |- context [ <[ ?k := _ ]> _ !! i ] =>
      destruct (decide (k = i)) as [<- | ?];
      [ rewrite lookup_insert_eq | rewrite lookup_insert_ne by assumption ]
  end.

Ltac case_ifs :=
  repeat match goal with
  | |- context [if ?c then _ else _] => destruct c
  end.

Lemma stepperFlowStartingPoint_keys (i : Z) :
  is_Some (stepperFlowStartingPoint !! i) <-> i = 0 \/ i = 1.
Proof.
  unfold stepperFlowStartingPoint. split.
  - intros [node H]. split_index i; auto. rewrite lookup_empty in H. discriminate.
  - intros [-> | ->]; vm_compute; eauto.
Qed.

Lemma signInStepperFlow_keys (i : Z) :
  is_Some (signInStepperFlow !! i) <-> 0 <= i <= 6.
Proof.
  unfold signInStepperFlow, stepperFlowStartingPoint. split.
  - intros [node H]. split_index i; try lia. rewrite lookup_empty in H. discriminate.
  - intros Hi.
    assert (i = 0 \/ i = 1 \/ i = 2 \/ i = 3 \/ i = 4 \/ i = 5 \/ i = 6) as Hc by lia.
    repeat destruct Hc as [-> | Hc]; try subst i; vm_compute; eauto.
Qed.

Lemma signUpStepperFlow_keys (i : Z) :
  is_Some (signUpStepperFlow !! i) <-> 0 <= i <= 4.
Proof.
  unfold signUpStepperFlow, stepperFlowStartingPoint. split.
  - intros [node H]. split_index i; try lia. rewrite lookup_empty in H. discriminate.
  - intros Hi.
    assert (i = 0 \/ i = 1 \/ i = 2 \/ i = 3 \/ i = 4) as Hc by lia.
    repeat destruct Hc as [-> | Hc]; try subst i; vm_compute; eauto.
Qed.

Lemma lookupPage_keys (t : StepperFlowType) (i : Z) :
  is_Some (lookupPage t i) <-> 0 <= i <= lastIndex t.
Proof.
  destruct t; cbn [lookupPage lastIndex].
  - apply signInStepperFlow_keys.
  - apply signUpStepperFlow_keys.
Qed.

Lemma lookupPage_miss (t : StepperFlowType) (i : Z) :
  lookupPage t i = None <-> i < 0 \/ lastIndex t < i.
Proof.
  rewrite eq_None_not_Some, lookupPage_keys. lia.
Qed.

(** Where each kind of screen sits. *)
Lemma lookupPage_inv (t : StepperFlowType) (i : Z) (node : ReactNode) :
  lookupPage t i = Some node ->
  match content node with
  | WelcomeContent => i = 0
  | LoginPage => i = 1
  | ResetPasswordPage f => t = signIn /\ i = 2 /\ f = GoToPage 3
  | OTPPasswordPage _ f =>
      t = signIn /\ (i = 3 /\ f = GoToPage 4 \/ i = 5 /\ f = GoToPage 6)
  | CreatePasswordPage f =>
      t = signIn /\ i = 4 /\ f = GoToPage 6 \/ t = signUp /\ i = 3 /\ f = GoToPage 4
  | SignUpPage f => t = signUp /\ i = 2 /\ f = GoToPage 3
  | SettingsAndThemes => t = signIn /\ i = 6 \/ t = signUp /\ i = 4
  end.
Proof.
  destruct t; cbn [lookupPage];
    unfold signInStepperFlow, signUpStepperFlow, stepperFlowStartingPoint; intros H;
    split_index i;
    try (rewrite lookup_empty in H; discriminate);
    injection H as <-; cbn; auto 6.
Qed.

(** ** What a commit keeps *)



Lemma sameKey_spec (a b : World) :
  sameKey a b = true <-> stepperType a = stepperType b /\ pageIndex a = pageIndex b.
Proof.
  unfold sameKey. rewrite andb_true_iff, Z.eqb_eq.
  destruct (stepperType a), (stepperType b); cbn; intuition congruence.
Qed.

Lemma commit_same (before after : World) :
  stepperType after = stepperType before -> pageIndex after = pageIndex before ->
  commit before after = after.
Proof.
  intros Ht Hi. unfold commit.
  replace (sameKey before after) with true; [reflexivity |].
  symmetry. apply sameKey_spec. auto.
Qed.

Lemma commit_pageIndex (a b : World) : pageIndex (commit a b) = pageIndex b.
Proof. unfold commit. destruct (sameKey a b); reflexivity. Qed.

Lemma commit_stepperType (a b : World) : stepperType (commit a b) = stepperType b.
Proof. unfold commit. destruct (sameKey a b); reflexivity. Qed.

Lemma commit_continuationCalls (a b : World) :
  continuationCalls (commit a b) = continuationCalls b.
Proof. unfold commit. destruct (sameKey a b); reflexivity. Qed.

Lemma commit_timers (a b : World) : timers (commit a b) = timers b.
Proof. unfold commit. destruct (sameKey a b); reflexivity. Qed.

Lemma commit_now (a b : World) : now (commit a b) = now b.
Proof. unfold commit. destruct (sameKey a b); reflexivity. Qed.

Lemma commit_isOnboardingComplete (a b : World) :
  isOnboardingComplete (commit a b) = isOnboardingComplete b.
Proof. unfold commit. destruct (sameKey a b); reflexivity. Qed.

Lemma commit_captured (a b : World) : captured (commit a b) = captured b.
Proof. unfold commit. destruct (sameKey a b); reflexivity. Qed.

Lemma commit_render (a b : World) : render (commit a b) = render b.
Proof. unfold render. rewrite commit_pageIndex, commit_stepperType. reflexivity. Qed.

(** After a commit the submitting flag is down when the handler left it down. *)
Lemma commit_isSubmitting_false (a b : World) :
  isSubmitting b = false -> isSubmitting (commit a b) = false.
Proof. unfold commit. destruct (sameKey a b); auto. Qed.

(** ** Switching the flow *)

Lemma setPageType_spec (t : StepperFlowType) (w : World) :
  stepperType (setPageType t w) = t /\ pageIndex (setPageType t w) = pageIndex w + 1.
Proof. split; reflexivity. Qed.

(** C1, as the specification states it, fails: from [Active(signIn, 1)] the
    "Sign up" link does not leave the page index at 1. *)
Lemma C1_counterexample :
  let w := run [UI ClickLoginSignup] (initialWorld false) in
  stepperType w = signIn /\ pageIndex w = 1 /\
  ~ (stepperType (dispatch ClickSignUp w) = signUp /\
     pageIndex (dispatch ClickSignUp w) = 1).
Proof.
  cbv zeta. split; [| split].
  - vm_compute. reflexivity.
  - vm_compute. reflexivity.
  - intros [_ H]. vm_compute in H. discriminate.
Qed.

(** C1 (amended): switching the flow type goes through [setPageType], which
    sets the flow and advances the page index by one.  On the credential
    screen (index 1, in either table) the "Sign up" link therefore yields
    [Active(signUp, 2)], and the lookup resolves in the sign-up table to the
    registration screen. *)
Theorem C1_switch_flow_advances (w : World) :
  pageIndex w = 1 ->
  let w' := dispatch ClickSignUp w in
  (forall t, stepperType (setPageType t w) = t /\
             pageIndex (setPageType t w) = pageIndex w + 1) /\
  stepperType w' = signUp /\ pageIndex w' = 2 /\
  render w' = signUpStepperFlow !! 2 /\
  content <$> render w' = Some (SignUpPage (GoToPage 3)).
Proof.
  intros Hidx w'. split; [intros t; apply setPageType_spec |].
  assert (dispatch ClickSignUp w = commit w (setPageType signUp w)) as Hd.
  { unfold dispatch, render. rewrite Hidx.
    destruct (stepperType w); reflexivity. }
  subst w'. rewrite Hd. unfold render.
  rewrite commit_pageIndex, commit_stepperType.
  destruct (setPageType_spec signUp w) as [-> ->]. rewrite Hidx.
  repeat split; reflexivity.
Qed.

Lemma C1_switch_flow_advances_witness :
  let w := run [UI ClickLoginSignup] (initialWorld false) in
  pageIndex w = 1 /\
  stepperType (dispatch ClickSignUp w) = signUp /\ pageIndex (dispatch ClickSignUp w) = 2.
Proof.
  cbv zeta. split; [reflexivity |].
  pose proof (C1_switch_flow_advances (run [UI ClickLoginSignup] (initialWorld false))
                eq_refl) as H.
  cbv zeta in H. destruct H as (_ & Ht & Hi & _). split; assumption.
Defined.

(** ** The two tables *)

Lemma signUpStepperFlow_no_OTP (i : Z) (node : ReactNode) (email : string)
    (f : VoidFunction) :
  signUpStepperFlow !! i = Some node -> content node <> OTPPasswordPage email f.
Proof.
  intros H Hc. apply (lookupPage_inv signUp) in H. rewrite Hc in H.
  destruct H as [H _]. discriminate.
Qed.

Lemma Part000_signIn_no_terminal (i : Z) (node : Part000.ReactNode) :
  Part000.signInStepperFlow !! i = Some node ->
  Part000.content node <> Part000.SettingsAndThemes.
Proof.
  unfold Part000.signInStepperFlow, Part000.stepperFlowStartingPoint. intros H.
  split_index i; try (rewrite lookup_empty in H; discriminate);
    injection H as <-; discriminate.
Qed.

(** C2, as the specification states it, fails in both revisions: the sign-up
    table of [VoidOnboarding.tsx] has no OTP confirmation screen at all (the
    entry after password creation is the settings-import screen), and in the
    earlier revision, whose sign-up table does list one, the sign-in table
    has no settings-import screen. *)
Lemma C2_counterexample :
  signUpStepperFlow !! 4 = Some renderLastStep /\
  ~ (exists i node email f,
       signUpStepperFlow !! i = Some node /\ content node = OTPPasswordPage email f) /\
  ~ (exists i node,
       Part000.signInStepperFlow !! i = Some node /\
       Part000.content node = Part000.SettingsAndThemes).
Proof.
  split; [reflexivity | split].
  - intros (i & node & email & f & H & Hc).
    exact (signUpStepperFlow_no_OTP i node email f H Hc).
  - intros (i & node & H & Hc). exact (Part000_signIn_no_terminal i node H Hc).
Qed.

(** C2 (amended): the two tables share entries 0 (welcome) and 1 (credential
    entry) and diverge at 2.  After the shared prefix the sign-up table holds
    registration details (2, continuing to 3), password creation (3,
    continuing to 4) and the settings-import screen (4), and nothing else;
    the sign-in table holds the settings-import screen at 6.  That screen is
    reached in either flow.  In the earlier revision the sign-up table holds
    registration (2), password creation (3), code confirmation (4) and the
    settings-import screen (9). *)
Theorem C2_tables_share_prefix_then_diverge :
  (signInStepperFlow !! 0 = signUpStepperFlow !! 0 /\
   content <$> signUpStepperFlow !! 0 = Some WelcomeContent) /\
  (signInStepperFlow !! 1 = signUpStepperFlow !! 1 /\
   content <$> signUpStepperFlow !! 1 = Some LoginPage) /\
  signInStepperFlow !! 2 <> signUpStepperFlow !! 2 /\
  content <$> signUpStepperFlow !! 2 = Some (SignUpPage (GoToPage 3)) /\
  content <$> signUpStepperFlow !! 3 = Some (CreatePasswordPage (GoToPage 4)) /\
  signUpStepperFlow !! 4 = Some renderLastStep /\
  (forall i, is_Some (signUpStepperFlow !! i) <-> 0 <= i <= 4) /\
  signInStepperFlow !! 6 = Some renderLastStep /\
  content renderLastStep = SettingsAndThemes /\
  (let w := run signInPath (initialWorld false) in
   stepperType w = signIn /\ render w = Some renderLastStep) /\
  (let w := run signUpPath (initialWorld false) in
   stepperType w = signUp /\ render w = Some renderLastStep) /\
  (Part000.content <$> Part000.signUpStepperFlow !! 2 = Some Part000.SignUpPage /\
   Part000.content <$> Part000.signUpStepperFlow !! 3 = Some Part000.CreatePasswordPage /\
   Part000.content <$> Part000.signUpStepperFlow !! 4 = Some Part000.ConfirmEmailPasswordPage /\
   Part000.content <$> Part000.signUpStepperFlow !! 9 = Some Part000.SettingsAndThemes).
Proof.
  repeat match goal with |- _ /\ _ => split end;
    try (vm_compute; reflexivity).
  - vm_compute. discriminate.
  - apply signUpStepperFlow_keys.
  - cbv zeta. split; vm_compute; reflexivity.
  - cbv zeta. split; vm_compute; reflexivity.
Qed.

(** ** Password creation *)

Lemma dispatch_on (w : World) (node : ReactNode) (ev : Event) :
  render w = Some node -> dispatch ev w = commit w (handle node ev w).
Proof. intros H. unfold dispatch. rewrite H. reflexivity. Qed.

Lemma advance_idle (dt : Z) (w : World) :
  timers w = [] -> advance dt w = with_now (now w + dt) (with_timers [] w).
Proof. intros H. unfold advance. rewrite H. reflexivity. Qed.

Lemma CreatePasswordPage_submitForm_mismatch (onSuccess : VoidFunction)
    (password confirmPassword : string) (w : World) :
  password <> confirmPassword ->
  CreatePasswordPage_submitForm onSuccess password confirmPassword w
  = with_error "Passwords do not match" w.
Proof.
  intros Hne. unfold CreatePasswordPage_submitForm.
  apply String.eqb_neq in Hne. rewrite Hne. cbn [negb].
  unfold setError. rewrite Nat.eqb_refl. cbn. rewrite Nat.eqb_refl. reflexivity.
Qed.

(** C3: a submission of the create-password form whose two fields differ
    never invokes [onSuccess] and leaves the page index alone; the inline
    error is set, the submitting flag is not raised and no timeout is
    scheduled, so nothing happens later either. *)
Theorem C3_mismatched_passwords_abort (w : World) (node : ReactNode)
    (onSuccess : VoidFunction) (password confirmPassword : string) :
  render w = Some node ->
  content node = CreatePasswordPage onSuccess ->
  password <> confirmPassword ->
  let w' := dispatch (SubmitCreatePassword password confirmPassword) w in
  continuationCalls w' = continuationCalls w /\
  pageIndex w' = pageIndex w /\
  stepperType w' = stepperType w /\
  error w' = "Passwords do not match"%string /\
  isSubmitting w' = isSubmitting w /\
  timers w' = timers w /\
  (timers w = [] ->
   forall dt, continuationCalls (advance dt w') = continuationCalls w /\
              pageIndex (advance dt w') = pageIndex w).
Proof.
  intros Hr Hc Hne w'.
  assert (w' = with_error "Passwords do not match" w) as ->.
  { subst w'. rewrite (dispatch_on w node) by assumption.
    unfold handle. rewrite Hc.
    rewrite CreatePasswordPage_submitForm_mismatch by assumption.
    apply commit_same; reflexivity. }
  repeat split; try reflexivity.
  - rewrite advance_idle by assumption. reflexivity.
  - rewrite advance_idle by assumption. reflexivity.
Qed.

Lemma C3_mismatched_passwords_abort_witness :
  let w := run (firstn 5 signUpPath) (initialWorld false) in
  let w' := dispatch (SubmitCreatePassword "password1" "password2") w in
  content <$> render w = Some (CreatePasswordPage (GoToPage 4)) /\
  continuationCalls w' = continuationCalls w /\
  pageIndex w' = pageIndex w /\
  error w' = "Passwords do not match"%string /\
  isSubmitting w' = isSubmitting w.
Proof.
  cbv zeta.
  assert (render (run (firstn 5 signUpPath) (initialWorld false))
          = signUpStepperFlow !! 3) as Hr by (vm_compute; reflexivity).
  assert (signUpStepperFlow !! 3
          = Some {| shell := OnboardingFormPageShell; title := Some "Create password"%string;
                    content := CreatePasswordPage (GoToPage 4);
                    bottom := Some prevButton |}) as Hn by (vm_compute; reflexivity).
  rewrite Hn in Hr.
  assert ("password1"%string <> "password2"%string) as Hne by discriminate.
  pose proof (C3_mismatched_passwords_abort _ _ (GoToPage 4) _ _ Hr eq_refl Hne) as H.
  cbv zeta in H. destruct H as (Hc & Hi & _ & He & Hs & _).
  split; [rewrite Hr; reflexivity |].
  split; [exact Hc |]. split; [exact Hi |]. split; [exact He | exact Hs].
Defined.

(** ** The OTP screen *)

Lemma run_cons (a : Action) (actions : list Action) (w : World) :
  run (a :: actions) w = run actions (step a w).
Proof. reflexivity. Qed.

Lemma run_app (xs ys : list Action) (w : World) :
  run (xs ++ ys) w = run ys (run xs w).
Proof. unfold run. apply fold_left_app. Qed.

Lemma dispatch_ChangeOtp_other_length (w : World) (node : ReactNode) (email : string)
    (onSuccess : VoidFunction) (v : string) :
  render w = Some node ->
  content node = OTPPasswordPage email onSuccess ->
  String.length v <> 6%nat ->
  dispatch (ChangeOtp v) w = if String.eqb (otp w) v then w else with_otp v w.
Proof.
  intros Hr Hc Hlen. rewrite (dispatch_on w node) by assumption.
  unfold handle. rewrite Hc. unfold OTPPasswordPage_onChange.
  destruct (String.eqb (otp w) v).
  - apply commit_same; reflexivity.
  - unfold setOtp. rewrite Nat.eqb_refl. unfold OTPPasswordPage_effect. cbn [otp with_otp].
    apply Nat.eqb_neq in Hlen. rewrite Hlen. apply commit_same; reflexivity.
Qed.

Lemma dispatch_ChangeOtp_length_6 (w : World) (node : ReactNode) (email : string)
    (onSuccess : VoidFunction) (v : string) :
  render w = Some node ->
  content node = OTPPasswordPage email onSuccess ->
  String.length (otp w) <> 6%nat ->
  String.length v = 6%nat ->
  dispatch (ChangeOtp v) w = commit w (call onSuccess (countContinuation (with_otp v w))).
Proof.
  intros Hr Hc Hold Hlen. rewrite (dispatch_on w node) by assumption.
  unfold handle. rewrite Hc. unfold OTPPasswordPage_onChange.
  destruct (String.eqb_spec (otp w) v) as [Heq | _].
  - rewrite Heq in Hold. contradiction.
  - unfold setOtp. rewrite Nat.eqb_refl. unfold OTPPasswordPage_effect. cbn [otp with_otp].
    rewrite Hlen. reflexivity.
Qed.

(** Values shorter than six characters leave everything but [otp] alone. *)
Lemma run_typeOtp_short (values : list string) (w : World) (node : ReactNode)
    (email : string) (onSuccess : VoidFunction) :
  render w = Some node ->
  content node = OTPPasswordPage email onSuccess ->
  String.length (otp w) <> 6%nat ->
  Forall (fun x => (String.length x < 6)%nat) values ->
  let w' := run (typeOtp values) w in
  render w' = Some node /\
  continuationCalls w' = continuationCalls w /\
  pageIndex w' = pageIndex w /\
  stepperType w' = stepperType w /\
  String.length (otp w') <> 6%nat.
Proof.
  intros Hr Hc Hold Hall. revert w Hr Hold.
  induction Hall as [| v values Hv _ IH]; intros w Hr Hold.
  - cbn. auto.
  - cbn [typeOtp map]. rewrite run_cons. cbn [step].
    rewrite (dispatch_ChangeOtp_other_length w node email onSuccess) by (assumption || lia).
    destruct (String.eqb (otp w) v).
    + apply IH; assumption.
    + destruct (IH (with_otp v w)) as (H1 & H2 & H3 & H4 & H5); [exact Hr | cbn; lia |].
      auto.
Qed.

(** A screen that is not an OTP screen ignores [ChangeOtp]. *)
Lemma run_typeOtp_elsewhere (values : list string) (w : World) (node : ReactNode) :
  render w = Some node ->
  (forall email f, content node <> OTPPasswordPage email f) ->
  run (typeOtp values) w = w.
Proof.
  intros Hr Hc. induction values as [| v values IH]; [reflexivity |].
  cbn [typeOtp map]. rewrite run_cons. cbn [step].
  rewrite (dispatch_on w node) by assumption.
  replace (handle node (ChangeOtp v) w) with w.
  - rewrite commit_same by reflexivity. exact IH.
  - unfold handle. destruct (content node) eqn:E; try reflexivity.
    exfalso. exact (Hc _ _ eq_refl).
Qed.

(** *** Reachable worlds never show a completed code *)

Lemma commit_otpIncomplete (a b : World) :
  (sameKey a b = true -> otpIncomplete b) -> otpIncomplete (commit a b).
Proof.
  intros H. unfold commit. destruct (sameKey a b); [auto |].
  intros node email f _ _. cbn. discriminate.
Qed.

Lemma otpIncomplete_same (w w' : World) :
  otpIncomplete w -> sameKey w w' = true -> otp w' = otp w -> otpIncomplete w'.
Proof.
  intros H Hk Ho node email f Hr Hc. rewrite Ho.
  apply sameKey_spec in Hk. destruct Hk as [Ht Hi].
  apply (H node email f); [| exact Hc].
  unfold render in *. rewrite Ht, Hi. exact Hr.
Qed.

Lemma handle_otp (node : ReactNode) (ev : Event) (w : World) :
  (forall v, ev <> ChangeOtp v) -> otp (handle node ev w) = otp w.
Proof.
  intros Hev. unfold handle, handleBottom.
  destruct ev, (content node); try reflexivity;
    try (exfalso; eapply Hev; reflexivity);
    unfold LoginPage_submitForm, ResetPasswordPage_submitForm, SignUpPage_submitForm,
      CreatePasswordPage_submitForm, completeOnboarding, capture,
      setGlobalSetting_isOnboardingComplete, onboardingCompleteEffect,
      setTimeout, setIsSubmitting, setError;
    cbn [mountId with_error]; case_ifs; try reflexivity;
    destruct (bottom node) as [[| |] |]; cbn; case_ifs; reflexivity.
Qed.

Lemma runTask_otpIncomplete (tm : Timer) (w : World) :
  otpIncomplete w -> otpIncomplete (runTask tm w).
Proof.
  intros H. unfold runTask. destruct (task tm) as [| f];
    apply commit_otpIncomplete; intros Hk;
    (eapply otpIncomplete_same; [exact H | exact Hk |]).
  - unfold LoginPage_submitForm_resume, setIsSubmitting. case_ifs; reflexivity.
  - unfold submitForm_resume, setIsSubmitting. destruct f. case_ifs; reflexivity.
Qed.

Lemma dispatch_otpIncomplete (ev : Event) (w : World) :
  otpIncomplete w -> otpIncomplete (dispatch ev w).
Proof.
  intros H. unfold dispatch. destruct (render w) as [node |] eqn:Hr; [| exact H].
  assert ((exists v, ev = ChangeOtp v) \/ forall v, ev <> ChangeOtp v) as [[v ->] | Hev].
  { destruct ev; try (right; discriminate). left. eauto. }
  - cbn [handle]. destruct (content node) eqn:Hc;
      try (rewrite commit_same by reflexivity; exact H).
    unfold OTPPasswordPage_onChange.
    destruct (String.eqb (otp w) v); [rewrite commit_same by reflexivity; exact H |].
    unfold setOtp. rewrite Nat.eqb_refl. unfold OTPPasswordPage_effect. cbn [otp with_otp].
    destruct (Nat.eqb_spec (String.length v) 6) as [Hlen | Hlen].
    + apply commit_otpIncomplete. intros Hk. exfalso.
      apply sameKey_spec in Hk. destruct Hk as [_ Hi].
      assert (lookupPage (stepperType w) (pageIndex w) = Some node) as Hl by exact Hr.
      apply lookupPage_inv in Hl. rewrite Hc in Hl.
      destruct Hl as [_ [[Hp ->] | [Hp ->]]]; cbn in Hi; lia.
    + rewrite commit_same by reflexivity.
      intros node' email' f' _ _. cbn. exact Hlen.
  - apply commit_otpIncomplete. intros Hk.
    eapply otpIncomplete_same; [exact H | exact Hk |]. apply handle_otp. exact Hev.
Qed.

Lemma advance_otpIncomplete (dt : Z) (w : World) :
  otpIncomplete w -> otpIncomplete (advance dt w).
Proof.
  intros H. unfold advance.
  set (w0 := with_now _ _).
  assert (otpIncomplete w0) as H0 by exact H.
  clearbody w0. revert w0 H0.
  induction (List.filter (fun tm => due tm <=? now w + dt) (timers w)) as [| tm l IH];
    intros w0 H0; [exact H0 |].
  cbn [fold_left]. apply IH. apply runTask_otpIncomplete. exact H0.
Qed.

Lemma externalSet_otpIncomplete (b : bool) (w : World) :
  otpIncomplete w -> otpIncomplete (externalSetOnboardingComplete b w).
Proof.
  intros H. unfold externalSetOnboardingComplete.
  apply commit_otpIncomplete. intros Hk.
  eapply otpIncomplete_same; [exact H | exact Hk |].
  unfold setGlobalSetting_isOnboardingComplete, onboardingCompleteEffect.
  cbn [isOnboardingComplete with_isOnboardingComplete]. case_ifs; reflexivity.
Qed.

Lemma reachable_otpIncomplete (w : World) : reachable w -> otpIncomplete w.
Proof.
  intros [actions <-].
  assert (otpIncomplete (initialWorld false)) as H0.
  { intros node email f _ _. cbn. discriminate. }
  revert H0. generalize (initialWorld false).
  induction actions as [| a actions IH]; intros w0 H0; [exact H0 |].
  rewrite run_cons. apply IH.
  destruct a; cbn [step];
    [apply dispatch_otpIncomplete | apply advance_otpIncomplete
     | apply externalSet_otpIncomplete]; exact H0.
Qed.

(** C4: on the OTP screen of any reachable world, values shorter than six
    characters never invoke [onSuccess]; the value that reaches length six
    invokes it once, moving to the page [onSuccess] names, and nothing
    entered afterwards invokes it again. *)
Theorem C4_otp_completes_once_at_six (w : World) (node : ReactNode) (email : string)
    (onSuccess : VoidFunction) (values : list string) (v : string)
    (more : list string) :
  reachable w ->
  render w = Some node ->
  content node = OTPPasswordPage email onSuccess ->
  Forall (fun x => (String.length x < 6)%nat) values ->
  String.length v = 6%nat ->
  let w1 := run (typeOtp values) w in
  let w2 := dispatch (ChangeOtp v) w1 in
  let w3 := run (typeOtp more) w2 in
  (continuationCalls w1 = continuationCalls w /\ pageIndex w1 = pageIndex w /\
   stepperType w1 = stepperType w) /\
  (continuationCalls w2 = S (continuationCalls w) /\
   GoToPage (pageIndex w2) = onSuccess) /\
  continuationCalls w3 = S (continuationCalls w).
Proof.
  intros Hreach Hr Hc Hall Hlen w1 w2 w3.
  pose proof (reachable_otpIncomplete w Hreach node email onSuccess Hr Hc) as Hold.
  destruct (run_typeOtp_short values w node email onSuccess Hr Hc Hold Hall)
    as (Hr1 & Hn1 & Hi1 & Ht1 & Ho1).
  fold w1 in Hr1, Hn1, Hi1, Ht1, Ho1.
  assert (w2 = commit w1 (call onSuccess (countContinuation (with_otp v w1)))) as Hw2.
  { subst w2. apply (dispatch_ChangeOtp_length_6 w1 node email); assumption. }
  assert (continuationCalls w2 = S (continuationCalls w)) as Hn2.
  { rewrite Hw2, commit_continuationCalls. destruct onSuccess. cbn. congruence. }
  assert (GoToPage (pageIndex w2) = onSuccess) as Hi2.
  { rewrite Hw2, commit_pageIndex. destruct onSuccess. reflexivity. }
  assert (stepperType w2 = stepperType w1) as Ht2.
  { rewrite Hw2, commit_stepperType. destruct onSuccess. reflexivity. }
  split; [auto | split; [auto |]].
  (* where the screen sits decides where [onSuccess] leads *)
  assert (lookupPage (stepperType w1) (pageIndex w1) = Some node) as Hl by exact Hr1.
  apply lookupPage_inv in Hl. rewrite Hc in Hl. destruct Hl as [Hs Hl].
  assert (exists node2, render w2 = Some node2 /\
                        forall e f, content node2 <> OTPPasswordPage e f) as (node2 & Hr2 & Hc2).
  { unfold render. rewrite Ht2, Hs.
    destruct Hl as [[_ Hf] | [_ Hf]]; rewrite Hf in Hi2; injection Hi2 as Hp;
      rewrite Hp; cbn [lookupPage].
    - exists {| shell := OnboardingFormPageShell;
                title := Some "Create new password"%string;
                content := CreatePasswordPage (GoToPage 6);
                bottom := Some prevButton |}.
      split; [vm_compute; reflexivity | cbn; discriminate].
    - exists renderLastStep.
      split; [vm_compute; reflexivity | cbn; discriminate]. }
  subst w3. rewrite (run_typeOtp_elsewhere more w2 node2) by assumption. exact Hn2.
Qed.

Lemma C4_otp_completes_once_at_six_witness :
  let w := run [UI ClickLoginSignup; UI ClickEmailSignInCode] (initialWorld false) in
  let w1 := run (typeOtp ["1"; "12"; "123"; "1234"; "12345"]%string) w in
  let w2 := dispatch (ChangeOtp "123456") w1 in
  content <$> render w
    = Some (OTPPasswordPage "test_verify_code@proton.com" (GoToPage 6)) /\
  continuationCalls w1 = continuationCalls w /\
  continuationCalls w2 = S (continuationCalls w) /\
  GoToPage (pageIndex w2) = GoToPage 6.
Proof.
  cbv zeta.
  assert (render (run [UI ClickLoginSignup; UI ClickEmailSignInCode] (initialWorld false))
          = Some {| shell := OnboardingFormPageShell;
                    title := Some "Check your email"%string;
                    content := OTPPasswordPage "test_verify_code@proton.com" (GoToPage 6);
                    bottom := Some returnToSignInButton |}) as Hr
    by (vm_compute; reflexivity).
  assert (reachable (run [UI ClickLoginSignup; UI ClickEmailSignInCode]
                         (initialWorld false))) as Ho
    by (eexists; reflexivity).
  assert (Forall (fun x => (String.length x < 6)%nat)
                 ["1"; "12"; "123"; "1234"; "12345"]%string) as Hall
    by (repeat constructor).
  pose proof (C4_otp_completes_once_at_six _ _ _ _ _ "123456"%string [] Ho Hr eq_refl Hall
                eq_refl) as H.
  cbv zeta in H. destruct H as ((Hn1 & _) & (Hn & Hi) & _).
  split; [rewrite Hr; reflexivity |].
  split; [exact Hn1 |]. split; [exact Hn | exact Hi].
Defined.

(** ** Submitting a form *)

Lemma dispatch_submit (w : World) (node : ReactNode) (ev : Event) (k : Task) :
  render w = Some node ->
  submitTask node ev = Some k ->
  exists w0,
    (w0 = w \/ w0 = with_error "" w) /\
    dispatch ev w
    = with_timers (enqueue {| due := now w + 1500; owner := mountId w; task := k |}
                           (timers w))
                  (with_isSubmitting true w0).
Proof.
  intros Hr Hk. rewrite (dispatch_on w node) by assumption.
  unfold submitTask in Hk. unfold handle.
  destruct ev, (content node); try discriminate.
  - injection Hk as <-. exists w. split; [auto |].
    unfold LoginPage_submitForm, setIsSubmitting. rewrite Nat.eqb_refl.
    apply commit_same; reflexivity.
  - injection Hk as <-. exists w. split; [auto |].
    unfold ResetPasswordPage_submitForm, setIsSubmitting. rewrite Nat.eqb_refl.
    apply commit_same; reflexivity.
  - destruct (String.eqb password confirmPassword) eqn:E; [| discriminate].
    injection Hk as <-. exists (with_error "" w). split; [auto |].
    unfold CreatePasswordPage_submitForm. rewrite E. cbn [negb].
    unfold setError. rewrite Nat.eqb_refl.
    unfold setIsSubmitting. cbn [mountId with_error]. rewrite Nat.eqb_refl.
    apply commit_same; reflexivity.
  - injection Hk as <-. exists w. split; [auto |].
    unfold SignUpPage_submitForm, setIsSubmitting. rewrite Nat.eqb_refl.
    apply commit_same; reflexivity.
Qed.

Lemma enqueue_repeat (tm : Timer) (n : nat) :
  enqueue tm (repeat tm n) = repeat tm (S n).
Proof.
  induction n as [| n IH]; [reflexivity |].
  cbn [repeat enqueue]. rewrite Z.leb_refl. rewrite IH. reflexivity.
Qed.

(** [n] submissions in a row on the same screen: [n] equal timeouts wait,
    and nothing else moved. *)
Lemma iter_submit (w : World) (node : ReactNode) (ev : Event) (k : Task) (n : nat) :
  render w = Some node ->
  submitTask node ev = Some k ->
  timers w = [] ->
  render (Nat.iter n (dispatch ev) w) = Some node /\
  continuationCalls (Nat.iter n (dispatch ev) w) = continuationCalls w /\
  now (Nat.iter n (dispatch ev) w) = now w /\
  mountId (Nat.iter n (dispatch ev) w) = mountId w /\
  timers (Nat.iter n (dispatch ev) w)
  = repeat {| due := now w + 1500; owner := mountId w; task := k |} n /\
  (n <> 0%nat -> isSubmitting (Nat.iter n (dispatch ev) w) = true).
Proof.
  intros Hr Hk Ht. induction n as [| n IH].
  - cbn. repeat split; auto; congruence.
  - change (Nat.iter (S n) (dispatch ev) w)
      with (dispatch ev (Nat.iter n (dispatch ev) w)).
    destruct IH as (Hr' & Hc' & Hn' & Hm' & Ht' & _).
    destruct (dispatch_submit _ node ev k Hr' Hk) as (w0 & Hw0 & ->).
    rewrite Hn', Hm', Ht', enqueue_repeat.
    unfold render in *.
    destruct Hw0 as [-> | ->]; cbn; repeat split; auto.
Qed.

Lemma runTask_continuationCalls (tm : Timer) (w : World) :
  continuationCalls (runTask tm w) = S (continuationCalls w).
Proof.
  unfold runTask. destruct (task tm) as [| f]; rewrite commit_continuationCalls.
  - unfold LoginPage_submitForm_resume, setIsSubmitting.
    match goal with |- context [if ?c then _ else _] => destruct c end; reflexivity.
  - unfold submitForm_resume, setIsSubmitting. destruct f.
    match goal with |- context [if ?c then _ else _] => destruct c end; reflexivity.
Qed.

Lemma runTask_isSubmitting (tm : Timer) (w : World) :
  owner tm = mountId w \/ isSubmitting w = false ->
  isSubmitting (runTask tm w) = false.
Proof.
  intros H. unfold runTask.
  destruct (task tm) as [| f]; apply commit_isSubmitting_false.
  - unfold LoginPage_submitForm_resume, setIsSubmitting.
    cbn [mountId setPageIndex setPageType setStepperType countContinuation
         with_pageIndex with_stepperType with_continuationCalls].
    destruct (Nat.eqb_spec (owner tm) (mountId w)) as [_ | Hne]; [reflexivity |].
    destruct H; [contradiction | assumption].
  - unfold submitForm_resume, setIsSubmitting. destruct f.
    cbn [mountId call setPageIndex countContinuation with_pageIndex
         with_continuationCalls].
    destruct (Nat.eqb_spec (owner tm) (mountId w)) as [_ | Hne]; [reflexivity |].
    destruct H; [contradiction | assumption].
Qed.

Lemma fold_runTask_continuationCalls (l : list Timer) (w : World) :
  continuationCalls (fold_left (fun acc tm => runTask tm acc) l w)
  = (length l + continuationCalls w)%nat.
Proof.
  revert w. induction l as [| tm l IH]; intros w; [reflexivity |].
  cbn [fold_left length]. rewrite IH, runTask_continuationCalls. lia.
Qed.

Lemma fold_runTask_isSubmitting (l : list Timer) (w : World) :
  isSubmitting w = false ->
  isSubmitting (fold_left (fun acc tm => runTask tm acc) l w) = false.
Proof.
  revert w. induction l as [| tm l IH]; intros w H; [exact H |].
  cbn [fold_left]. apply IH. apply runTask_isSubmitting. auto.
Qed.

Lemma filter_repeat_true {A : Type} (p : A -> bool) (x : A) (n : nat) :
  p x = true -> List.filter p (repeat x n) = repeat x n.
Proof.
  intros H. induction n as [| n IH]; [reflexivity |].
  cbn [repeat List.filter]. rewrite H, IH. reflexivity.
Qed.

Lemma filter_repeat_false {A : Type} (p : A -> bool) (x : A) (n : nat) :
  p x = false -> List.filter p (repeat x n) = [].
Proof.
  intros H. induction n as [| n IH]; [reflexivity |].
  cbn [repeat List.filter]. rewrite H. exact IH.
Qed.

(** C5, as the specification states it, fails: the submit button is never
    disabled ([isSubmitting] only swaps its label for the spinner) and
    [submitForm] does not look at the flag, so a second submit event while
    the first is in flight schedules a second timeout, and the continuation
    runs twice. *)
Lemma C5_counterexample :
  let w := run [UI ClickLoginSignup] (initialWorld false) in
  let submit := UI (SubmitLogin "user@example.com" "password1") in
  isSubmitting (run [submit] w) = true /\
  length (timers (run [submit; submit] w)) = 2%nat /\
  continuationCalls (run [submit; submit; Wait 1500] w) <> 1%nat.
Proof.
  cbv zeta. split; [| split].
  - vm_compute. reflexivity.
  - vm_compute. reflexivity.
  - vm_compute. discriminate.
Qed.

(** C5 (amended): every submit event of a well-formed form raises the
    submitting flag at once and schedules one timeout of 1500 ms; until it
    is due no continuation runs and the flag stays up; when it is due the
    continuation runs once per submit event and the flag is down.  One
    submit event ([n = 0]) gives exactly one invocation; resubmission is not
    disabled, so [S n] submit events give [S n] invocations. *)
Theorem C5_one_continuation_per_submit_event (w : World) (node : ReactNode)
    (ev : Event) (k : Task) (n : nat) :
  render w = Some node ->
  submitTask node ev = Some k ->
  timers w = [] ->
  let submitted := Nat.iter (S n) (dispatch ev) w in
  isSubmitting (dispatch ev w) = true /\
  isSubmitting submitted = true /\
  continuationCalls submitted = continuationCalls w /\
  render submitted = render w /\
  (forall dt, 0 <= dt < 1500 ->
     continuationCalls (advance dt submitted) = continuationCalls w /\
     isSubmitting (advance dt submitted) = true) /\
  continuationCalls (advance 1500 submitted) = (S n + continuationCalls w)%nat /\
  isSubmitting (advance 1500 submitted) = false.
Proof.
  intros Hr Hk Ht submitted.
  destruct (iter_submit w node ev k 1 Hr Hk Ht) as (_ & _ & _ & _ & _ & Hs1).
  destruct (iter_submit w node ev k (S n) Hr Hk Ht) as (Hr' & Hc' & Hn' & Hm' & Ht' & Hs').
  fold submitted in Hr', Hc', Hn', Hm', Ht', Hs'.
  split; [apply Hs1; discriminate |].
  split; [apply Hs'; discriminate |].
  split; [exact Hc' |].
  split; [congruence |].
  set (tm := {| due := now w + 1500; owner := mountId w; task := k |}) in *.
  split; [| split].
  - intros dt Hdt. unfold advance. rewrite Ht', Hn'.
    rewrite filter_repeat_false by (cbn; lia).
    cbn [fold_left]. split; [exact Hc' | apply Hs'; discriminate].
  - unfold advance. rewrite Ht', Hn'.
    rewrite filter_repeat_true by (cbn; lia).
    rewrite fold_runTask_continuationCalls, repeat_length.
    cbn [continuationCalls with_now with_timers]. rewrite Hc'. reflexivity.
  - unfold advance. rewrite Ht', Hn'.
    rewrite filter_repeat_true by (cbn; lia).
    cbn [repeat fold_left]. apply fold_runTask_isSubmitting.
    apply runTask_isSubmitting. left. cbn. symmetry. exact Hm'.
Qed.

Lemma C5_one_continuation_per_submit_event_witness :
  let w := run [UI ClickLoginSignup] (initialWorld false) in
  let ev := SubmitLogin "user@example.com" "password1" in
  content <$> render w = Some LoginPage /\
  isSubmitting (dispatch ev w) = true /\
  continuationCalls (advance 1500 (dispatch ev w)) = S (continuationCalls w) /\
  isSubmitting (advance 1500 (dispatch ev w)) = false /\
  continuationCalls (advance 1500 (dispatch ev (dispatch ev w)))
  = S (S (continuationCalls w)).
Proof.
  cbv zeta.
  assert (render (run [UI ClickLoginSignup] (initialWorld false))
          = Some {| shell := OnboardingFormPageShell; title := Some "Sign in"%string;
                    content := LoginPage; bottom := None |}) as Hr
    by (vm_compute; reflexivity).
  assert (timers (run [UI ClickLoginSignup] (initialWorld false)) = []) as Ht
    by (vm_compute; reflexivity).
  pose proof (C5_one_continuation_per_submit_event _ _
                (SubmitLogin "user@example.com" "password1") LoginSubmitResume 0
                Hr eq_refl Ht) as H1.
  pose proof (C5_one_continuation_per_submit_event _ _
                (SubmitLogin "user@example.com" "password1") LoginSubmitResume 1
                Hr eq_refl Ht) as H2.
  cbv zeta in H1, H2.
  destruct H1 as (Hs & _ & _ & _ & _ & Hc1 & Hf1).
  destruct H2 as (_ & _ & _ & _ & _ & Hc2 & _).
  split; [rewrite Hr; reflexivity |].
  split; [exact Hs |]. split; [exact Hc1 |]. split; [exact Hf1 | exact Hc2].
Defined.

(** ** The completion action *)

Lemma completeOnboarding_spec (w : World) :
  completeOnboarding w
  = with_captured
      (captured w ++ [{| eventName := "Completed Onboarding";
                         prop_selectedProviderName := getSelectedProvider w;
                         prop_wantToUseOption := wantToUseOption w |}])
      (with_isOnboardingComplete true w).
Proof.
  unfold completeOnboarding, capture, setGlobalSetting_isOnboardingComplete.
  destruct (Bool.eqb (isOnboardingComplete w) true); reflexivity.
Qed.

(** C6: the primary button of the terminal screen always performs both side
    effects, whatever the state: the completion flag of the settings service
    is set to true, and one 'Completed Onboarding' event is captured whose
    properties are the provider selected for the active intent category and
    that category. *)
Theorem C6_completion_sets_flag_and_captures_event (w : World) (node : ReactNode) :
  render w = Some node ->
  bottom node = Some lastPagePrevAndNextButtons ->
  let w' := dispatch ClickBottom w in
  isOnboardingComplete w' = true /\
  captured w'
  = captured w ++ [{| eventName := "Completed Onboarding";
                      prop_selectedProviderName := getSelectedProvider w;
                      prop_wantToUseOption := wantToUseOption w |}] /\
  getSelectedProvider w
  = match wantToUseOption w with
    | smart => selectedIntelligentProvider w
    | private => selectedPrivateProvider w
    | cheap => selectedAffordableProvider w
    | all => selectedAllProvider w
    end.
Proof.
  intros Hr Hb w'.
  assert (w' = commit w (completeOnboarding w)) as ->.
  { subst w'. rewrite (dispatch_on w node) by assumption.
    unfold handle. destruct (content node); unfold handleBottom; rewrite Hb; reflexivity. }
  rewrite commit_isOnboardingComplete, commit_captured, completeOnboarding_spec.
  split; [reflexivity | split; reflexivity].
Qed.

Lemma C6_completion_sets_flag_and_captures_event_witness :
  let w := run signInPath (initialWorld false) in
  let w' := dispatch ClickBottom w in
  isOnboardingComplete w = false /\
  isOnboardingComplete w' = true /\
  captured w' = [{| eventName := "Completed Onboarding";
                    prop_selectedProviderName := "anthropic";
                    prop_wantToUseOption := smart |}].
Proof.
  cbv zeta.
  assert (render (run signInPath (initialWorld false)) = Some renderLastStep) as Hr
    by (vm_compute; reflexivity).
  pose proof (C6_completion_sets_flag_and_captures_event _ _ Hr eq_refl) as H.
  cbv zeta in H. destruct H as (Hf & Hc & _).
  split; [vm_compute; reflexivity |]. split; [exact Hf |].
  rewrite Hc. vm_compute. reflexivity.
Defined.

(** ** Lookup misses and retreat *)

(** C8: the lookup is total; an index outside the keys of the active table
    renders nothing, and a blank step offers no event, so nothing fails.
    Retreat subtracts one without clamping (from 0 it yields -1, which has no
    entry), no setter checks its target against the table, and a blank step
    is reached by navigation. *)
Theorem C8_lookup_miss_is_blank_and_retreat_unclamped (w : World) (ev : Event) :
  (render w = None <->
   pageIndex w < 0 \/ lastIndex (stepperType w) < pageIndex w) /\
  (render w = None -> dispatch ev w = w) /\
  pageIndex (handleBottom (Some prevButton) w) = pageIndex w - 1 /\
  render (handleBottom (Some prevButton) (with_pageIndex 0 w)) = None /\
  (let blank := run blankPath (initialWorld false) in
   stepperType blank = signUp /\ pageIndex blank = 5 /\ render blank = None).
Proof.
  split; [apply lookupPage_miss |].
  split; [intros Hr; unfold dispatch; rewrite Hr; reflexivity |].
  split; [reflexivity |].
  split.
  - apply lookupPage_miss. cbn. lia.
  - cbv zeta. split; [| split]; vm_compute; reflexivity.
Qed.

Lemma C8_lookup_miss_is_blank_and_retreat_unclamped_witness :
  let blank := run blankPath (initialWorld false) in
  render blank = None /\ dispatch ClickBottom blank = blank.
Proof.
  cbv zeta.
  pose proof (C8_lookup_miss_is_blank_and_retreat_unclamped
                (run blankPath (initialWorld false)) ClickBottom) as H.
  destruct H as (_ & Hd & _ & _ & Hb). cbv zeta in Hb. destruct Hb as (_ & _ & Hr).
  split; [exact Hr | exact (Hd Hr)].
Defined.

(** ** The effect on the completion flag *)

(** C9: when the completion flag goes from true to false, the effect that
    watches it sets the page index to 0; whatever the flow type was, the
    screen rendered then is the welcome screen. *)
Theorem C9_flag_reset_returns_to_first_page (w : World) :
  isOnboardingComplete w = true ->
  let w' := externalSetOnboardingComplete false w in
  isOnboardingComplete w' = false /\
  pageIndex w' = 0 /\
  stepperType w' = stepperType w /\
  content <$> render w' = Some WelcomeContent.
Proof.
  intros Hf w'. subst w'. unfold externalSetOnboardingComplete, render.
  rewrite commit_isOnboardingComplete, commit_pageIndex, commit_stepperType.
  unfold setGlobalSetting_isOnboardingComplete. rewrite Hf. cbn.
  repeat split. destruct (stepperType w); vm_compute; reflexivity.
Qed.

Lemma C9_flag_reset_returns_to_first_page_witness :
  let w := run (signUpPath ++ [UI ClickBottom]) (initialWorld false) in
  let w' := externalSetOnboardingComplete false w in
  pageIndex w = 4 /\ isOnboardingComplete w = true /\
  isOnboardingComplete w' = false /\ pageIndex w' = 0 /\
  content <$> render w' = Some WelcomeContent.
Proof.
  cbv zeta.
  assert (isOnboardingComplete (run (signUpPath ++ [UI ClickBottom]) (initialWorld false))
          = true) as Hf by (vm_compute; reflexivity).
  pose proof (C9_flag_reset_returns_to_first_page _ Hf) as H.
  cbv zeta in H. destruct H as (H1 & H2 & _ & H4).
  split; [vm_compute; reflexivity |]. split; [exact Hf |].
  split; [exact H1 |]. split; [exact H2 | exact H4].
Defined.

(** ** Signing in *)

(** C10: whatever email and password were entered, a submission of the
    sign-in form keeps the credential screen until the timeout is due and
    then sets the flow type to [signIn] and the page index to 6, where the
    sign-in table holds the settings-import screen: no screen in between is
    rendered.  (The updates of the resumed handler, [setPageType('signIn')]
    and [setPageIndex(6)], are committed together.) *)
Theorem C10_sign_in_jumps_to_settings_import (w : World) (node : ReactNode)
    (email password : string) :
  render w = Some node ->
  content node = LoginPage ->
  timers w = [] ->
  let w1 := dispatch (SubmitLogin email password) w in
  let w2 := advance 1500 w1 in
  render w1 = Some node /\
  (forall dt, 0 <= dt < 1500 -> render (advance dt w1) = Some node) /\
  stepperType w2 = signIn /\
  pageIndex w2 = 6 /\
  render w2 = Some renderLastStep /\
  content renderLastStep = SettingsAndThemes.
Proof.
  intros Hr Hc Ht w1 w2.
  assert (submitTask node (SubmitLogin email password) = Some LoginSubmitResume) as Hk.
  { unfold submitTask. rewrite Hc. reflexivity. }
  destruct (iter_submit w node _ _ 1 Hr Hk Ht) as (Hr1 & _ & Hn1 & _ & Ht1 & _).
  change (Nat.iter 1 (dispatch (SubmitLogin email password)) w) with w1 in *.
  cbn [repeat] in Ht1.
  assert (stepperType w2 = signIn /\ pageIndex w2 = 6) as [Hs2 Hi2].
  { subst w2. unfold advance. rewrite Ht1, Hn1. cbn [List.filter due].
    replace (now w + 1500 <=? now w + 1500) with true by (symmetry; apply Z.leb_refl).
    cbn [fold_left]. unfold runTask. cbn [task].
    rewrite commit_stepperType, commit_pageIndex.
    unfold LoginPage_submitForm_resume, setIsSubmitting.
    match goal with |- context [if ?c then _ else _] => destruct c end;
      split; reflexivity. }
  split; [exact Hr1 |].
  split.
  - intros dt Hdt. unfold advance. rewrite Ht1, Hn1. cbn [List.filter due].
    replace (now w + 1500 <=? now w + dt) with false by (symmetry; apply Z.leb_gt; lia).
    cbn [fold_left]. exact Hr1.
  - split; [exact Hs2 |]. split; [exact Hi2 |].
    split; [| reflexivity].
    unfold render. rewrite Hs2, Hi2. vm_compute. reflexivity.
Qed.

Lemma C10_sign_in_jumps_to_settings_import_witness :
  let w := run [UI ClickLoginSignup] (initialWorld false) in
  let w2 := advance 1500 (dispatch (SubmitLogin "user@example.com" "password1") w) in
  content <$> render w = Some LoginPage /\
  stepperType w2 = signIn /\ pageIndex w2 = 6 /\ render w2 = Some renderLastStep.
Proof.
  cbv zeta.
  assert (render (run [UI ClickLoginSignup] (initialWorld false))
          = Some {| shell := OnboardingFormPageShell; title := Some "Sign in"%string;
                    content := LoginPage; bottom := None |}) as Hr
    by (vm_compute; reflexivity).
  assert (timers (run [UI ClickLoginSignup] (initialWorld false)) = []) as Ht
    by (vm_compute; reflexivity).
  pose proof (C10_sign_in_jumps_to_settings_import _ _ "user@example.com" "password1"
                Hr eq_refl Ht) as H.
  cbv zeta in H. destruct H as (_ & _ & Hs & Hi & Hl & _).
  split; [rewrite Hr; reflexivity |].
  split; [exact Hs |]. split; [exact Hi | exact Hl].
Defined.

(** ** The provider-setup screen *)

Lemma sameMessage_spec (a b : option string) :
  AddProviders.sameMessage a b = true <-> a = b.
Proof.
  destruct a as [x |], b as [y |]; cbn; try (split; congruence).
  rewrite String.eqb_eq. split; congruence.
Qed.

Lemma setErrorMessage_errorMessage {S : Type} (m : option string)
    (s : AddProviders.State S) :
  AddProviders.errorMessage (AddProviders.setErrorMessage m s) = m.
Proof.
  unfold AddProviders.setErrorMessage.
  destruct (AddProviders.sameMessage (AddProviders.errorMessage s) m) eqn:E.
  - apply sameMessage_spec. exact E.
  - reflexivity.
Qed.

Lemma setErrorMessage_pageIndex {S : Type} (m : option string)
    (s : AddProviders.State S) :
  AddProviders.pageIndex (AddProviders.setErrorMessage m s) = AddProviders.pageIndex s.
Proof.
  unfold AddProviders.setErrorMessage.
  destruct (AddProviders.sameMessage (AddProviders.errorMessage s) m); reflexivity.
Qed.

(** C7: with a Chat model configured, Next advances the page index by one
    and clears the message.  With the Chat feature disabled, Next leaves the
    page index alone and sets the message; when no message was showing, the
    message stays for the next 5000 ms and is gone once they have passed. *)
Theorem C7_next_needs_a_chat_model (SettingsState : Type)
    (isFeatureNameDisabled : AddProviders.FeatureName -> SettingsState -> bool)
    (s : AddProviders.State SettingsState) :
  let isDisabled := isFeatureNameDisabled AddProviders.Chat (AddProviders.settingsState s) in
  let s' := AddProviders.nextClick isFeatureNameDisabled s in
  (isDisabled = false ->
   AddProviders.pageIndex s' = AddProviders.pageIndex s + 1 /\
   AddProviders.errorMessage s' = None) /\
  (isDisabled = true ->
   AddProviders.pageIndex s' = AddProviders.pageIndex s /\
   AddProviders.errorMessage s' = Some AddProviders.errorText /\
   (AddProviders.errorMessage s = None ->
    (forall dt, 0 <= dt < 5000 ->
       AddProviders.errorMessage (AddProviders.advance dt s')
       = Some AddProviders.errorText) /\
    AddProviders.errorMessage (AddProviders.advance 5000 s') = None /\
    AddProviders.pageIndex (AddProviders.advance 5000 s') = AddProviders.pageIndex s)).
Proof.
  intros isDisabled s'. subst isDisabled s'. unfold AddProviders.nextClick.
  split; intros Hd; rewrite Hd; cbn [negb].
  - rewrite setErrorMessage_pageIndex, setErrorMessage_errorMessage. split; reflexivity.
  - rewrite setErrorMessage_pageIndex, setErrorMessage_errorMessage.
    split; [reflexivity | split; [reflexivity |]].
    intros Hnone. unfold AddProviders.setErrorMessage at 1 2 3.
    rewrite Hnone. cbn [AddProviders.sameMessage AddProviders.truthy].
    replace (String.eqb AddProviders.errorText "") with false by reflexivity.
    cbn [negb]. split; [| split].
    + intros dt Hdt. unfold AddProviders.advance. cbn [AddProviders.timeoutId AddProviders.now].
      replace (AddProviders.now s + 5000 <=? AddProviders.now s + dt) with false
        by (symmetry; apply Z.leb_gt; lia).
      reflexivity.
    + unfold AddProviders.advance. cbn [AddProviders.timeoutId AddProviders.now].
      rewrite Z.leb_refl. apply setErrorMessage_errorMessage.
    + unfold AddProviders.advance. cbn [AddProviders.timeoutId AddProviders.now].
      rewrite Z.leb_refl. rewrite setErrorMessage_pageIndex. reflexivity.
Qed.

Lemma C7_next_needs_a_chat_model_witness :
  let blocked := AddProviders.nextClick chatMissing (AddProviders.initialState 2 true) in
  let free := AddProviders.nextClick chatMissing (AddProviders.initialState 2 false) in
  (AddProviders.pageIndex free = 3 /\ AddProviders.errorMessage free = None) /\
  (AddProviders.pageIndex blocked = 2 /\
   AddProviders.errorMessage blocked = Some AddProviders.errorText /\
   AddProviders.errorMessage (AddProviders.advance 4999 blocked)
   = Some AddProviders.errorText /\
   AddProviders.errorMessage (AddProviders.advance 5000 blocked) = None).
Proof.
  cbv zeta.
  pose proof (C7_next_needs_a_chat_model bool chatMissing
                (AddProviders.initialState 2 false)) as Hfree.
  pose proof (C7_next_needs_a_chat_model bool chatMissing
                (AddProviders.initialState 2 true)) as Hblocked.
  cbv zeta in Hfree, Hblocked.
  destruct Hfree as [Hfree _]. destruct Hblocked as [_ Hblocked].
  split; [exact (Hfree eq_refl) |].
  destruct (Hblocked eq_refl) as (Hp & Hm & Ht).
  destruct (Ht eq_refl) as (Hstay & Hgone & _).
  split; [exact Hp |]. split; [exact Hm |].
  split; [apply Hstay; lia | exact Hgone].
Defined.

(** * Further properties *)

(** ** Where the bottom buttons sit *)

Lemma lookupPage_bottom (t : StepperFlowType) (i : Z) (node : ReactNode) :
  lookupPage t i = Some node ->
  match bottom node with
  | Some prevButton => 2 <= i <= 4
  | Some returnToSignInButton => t = signIn /\ i = 5
  | Some lastPagePrevAndNextButtons => content node = SettingsAndThemes
  | None => i = 0 \/ i = 1
  end.
Proof.
  destruct t; cbn [lookupPage];
    unfold signInStepperFlow, signUpStepperFlow, stepperFlowStartingPoint; intros H;
    split_index i;
    try (rewrite lookup_empty in H; discriminate);
    injection H as <-; cbn; auto; lia.
Qed.

Lemma lookupPage_onSuccess_inRange (t : StepperFlowType) (i : Z) (node : ReactNode)
    (ev : Event) (k : Task) :
  lookupPage t i = Some node -> submitTask node ev = Some k -> taskInRange k.
Proof.
  intros Hl Hk. apply lookupPage_inv in Hl. unfold submitTask in Hk.
  destruct ev, (content node); try discriminate;
    try (destruct (String.eqb password confirmPassword); [| discriminate]);
    injection Hk as <-; cbn; auto.
  - destruct Hl as (_ & _ & ->). lia.
  - destruct Hl as [(_ & _ & ->) | (_ & _ & ->)]; lia.
  - destruct Hl as (_ & _ & ->). lia.
Qed.

(** ** The page index stays between 0 and 6 *)

Lemma enqueue_Forall (P : Timer -> Prop) (tm : Timer) (q : list Timer) :
  P tm -> Forall P q -> Forall P (enqueue tm q).
Proof.
  intros Htm Hq. induction Hq as [| x q Hx Hq IH]; cbn [enqueue].
  - constructor; [exact Htm | constructor].
  - destruct (due x <=? due tm); constructor; auto.
Qed.

Lemma commit_inRange (a b : World) : inRange b -> inRange (commit a b).
Proof.
  unfold inRange. rewrite commit_pageIndex, commit_timers. auto.
Qed.

Lemma handle_ClickBottom (node : ReactNode) (w : World) :
  handle node ClickBottom w = handleBottom (bottom node) w.
Proof. unfold handle. destruct (content node); reflexivity. Qed.

Lemma handle_inRange (w : World) (node : ReactNode) (ev : Event) :
  render w = Some node -> inRange w -> inRange (handle node ev w).
Proof.
  intros Hr [Hi Ht].
  assert (lookupPage (stepperType w) (pageIndex w) = Some node) as Hl by exact Hr.
  pose proof (lookupPage_inv _ _ _ Hl) as Hc.
  pose proof (lookupPage_bottom _ _ _ Hl) as Hb.
  destruct (submitTask node ev) as [k |] eqn:Hk.
  - (* a submission: the index stays, one task in range is queued *)
    destruct (dispatch_submit w node ev k Hr Hk) as (w0 & Hw0 & Hd).
    rewrite (dispatch_on w node) in Hd by assumption.
    assert (inRange (commit w (handle node ev w))) as Hin.
    { rewrite Hd. unfold inRange. cbn [pageIndex timers with_timers with_isSubmitting].
      split.
      - destruct Hw0 as [-> | ->]; exact Hi.
      - apply enqueue_Forall.
        + cbn [task]. exact (lookupPage_onSuccess_inRange _ _ _ _ _ Hl Hk).
        + destruct Hw0 as [-> | ->]; exact Ht. }
    unfold inRange in *. rewrite commit_pageIndex, commit_timers in Hin. exact Hin.
  - destruct ev.
    11: { (* the bottom button *)
      rewrite handle_ClickBottom. unfold inRange, handleBottom.
      destruct (bottom node) as [[| |] |]; try (cbn; split; [lia | exact Ht]).
      rewrite completeOnboarding_spec. split; [exact Hi | exact Ht]. }
    all: unfold inRange, handle; unfold submitTask in Hk;
      destruct (content node) eqn:Ec; try discriminate; try (split; assumption);
      try (split; [cbn; lia | exact Ht]).
    + (* ChangeOtp *)
      unfold OTPPasswordPage_onChange, OTPPasswordPage_effect, setOtp.
      destruct Hc as [_ [[_ ->] | [_ ->]]]; case_ifs; cbn; (split; [lia | exact Ht]).
    + (* a mismatch on the create-password form *)
      destruct (String.eqb password confirmPassword) eqn:E; [discriminate |].
      unfold CreatePasswordPage_submitForm. rewrite E. cbn [negb].
      unfold setError. case_ifs; cbn; (split; [exact Hi | exact Ht]).
Qed.

Lemma runTask_inRange (tm : Timer) (w : World) :
  taskInRange (task tm) -> inRange w -> inRange (runTask tm w).
Proof.
  intros Hk [Hi Ht]. unfold runTask. destruct (task tm) as [| [idx]];
    apply commit_inRange; unfold inRange.
  - unfold LoginPage_submitForm_resume, setIsSubmitting. case_ifs; cbn; (split; [lia | exact Ht]).
  - unfold submitForm_resume, setIsSubmitting. cbn in Hk.
    case_ifs; cbn; (split; [lia | exact Ht]).
Qed.

Lemma Forall_filter {A : Type} (P : A -> Prop) (p : A -> bool) (l : list A) :
  Forall P l -> Forall P (List.filter p l).
Proof.
  intros H. induction H as [| x l Hx Hl IH]; cbn [List.filter]; [constructor |].
  destruct (p x); [constructor |]; auto.
Qed.

Lemma fold_runTask_inRange (l : list Timer) (w : World) :
  Forall (fun tm => taskInRange (task tm)) l -> inRange w ->
  inRange (fold_left (fun acc tm => runTask tm acc) l w).
Proof.
  intros Hl. revert w. induction Hl as [| tm l Htm Hl IH]; intros w Hw; [exact Hw |].
  cbn [fold_left]. apply IH. apply runTask_inRange; assumption.
Qed.

Lemma step_inRange (a : Action) (w : World) : inRange w -> inRange (step a w).
Proof.
  intros Hw. destruct a as [ev | dt | b]; cbn [step].
  - unfold dispatch. destruct (render w) as [node |] eqn:Hr; [| exact Hw].
    apply commit_inRange. apply handle_inRange; assumption.
  - unfold advance. destruct Hw as [Hi Ht]. apply fold_runTask_inRange.
    + apply Forall_filter. exact Ht.
    + split; [exact Hi |]. cbn [timers with_now with_timers].
      apply Forall_filter. exact Ht.
  - unfold externalSetOnboardingComplete. apply commit_inRange.
    destruct Hw as [Hi Ht].
    unfold inRange, setGlobalSetting_isOnboardingComplete, onboardingCompleteEffect.
    case_ifs; cbn; (split; [lia || exact Hi | exact Ht]).
Qed.

Lemma run_inRange (actions : list Action) (w : World) :
  inRange w -> inRange (run actions w).
Proof.
  revert w. induction actions as [| a actions IH]; intros w Hw; [exact Hw |].
  rewrite run_cons. apply IH. apply step_inRange. exact Hw.
Qed.

(** X1: in every reachable world the page index lies between 0 and 6: it is
    never negative, although retreat is not clamped.  So the sign-in flow
    always has a screen to render, and a blank step can only be index 5 or 6
    of the sign-up flow. *)
Theorem X1_reachable_page_index_in_range (w : World) :
  reachable w ->
  0 <= pageIndex w <= 6 /\
  (stepperType w = signIn -> is_Some (render w)) /\
  (render w = None -> stepperType w = signUp /\ 5 <= pageIndex w <= 6).
Proof.
  intros [actions <-].
  assert (inRange (run actions (initialWorld false))) as [Hi _].
  { apply run_inRange. split; [cbn; lia | constructor]. }
  split; [exact Hi |]. split.
  - intros Ht. unfold render. rewrite Ht. apply (lookupPage_keys signIn). cbn. exact Hi.
  - intros Hr. apply lookupPage_miss in Hr.
    destruct (stepperType (run actions (initialWorld false))); cbn in Hr; [lia |].
    split; [reflexivity | lia].
Qed.

Lemma X1_reachable_page_index_in_range_witness :
  let blank := run blankPath (initialWorld false) in
  render blank = None /\ stepperType blank = signUp /\ 0 <= pageIndex blank <= 6.
Proof.
  cbv zeta.
  assert (reachable (run blankPath (initialWorld false))) as Hreach
    by (eexists; reflexivity).
  assert (render (run blankPath (initialWorld false)) = None) as Hr
    by (vm_compute; reflexivity).
  destruct (X1_reachable_page_index_in_range _ Hreach) as (Hi & _ & Hb).
  destruct (Hb Hr) as [Ht _].
  split; [exact Hr |]. split; [exact Ht | exact Hi].
Defined.

(** ** The submitting flag is backed by a pending timeout *)

Lemma enqueue_In (tm x : Timer) (q : list Timer) :
  In x (enqueue tm q) <-> x = tm \/ In x q.
Proof.
  induction q as [| y q IH]; cbn [enqueue].
  - cbn. intuition congruence.
  - destruct (due y <=? due tm); cbn [In]; [rewrite IH |]; intuition congruence.
Qed.

(** Outside a submission a handler leaves the flag, the queue and the
    mounted instance alone. *)
Lemma handle_keeps_submission (node : ReactNode) (ev : Event) (w : World) :
  submitTask node ev = None ->
  isSubmitting (handle node ev w) = isSubmitting w /\
  timers (handle node ev w) = timers w /\
  mountId (handle node ev w) = mountId w.
Proof.
  intros Hk. destruct ev.
  11: { rewrite handle_ClickBottom. unfold handleBottom.
        destruct (bottom node) as [[| |] |]; try (cbn; auto; fail).
        rewrite completeOnboarding_spec. cbn. auto. }
  all: unfold handle; unfold submitTask in Hk;
    destruct (content node); try discriminate; try (cbn; auto; fail).
  - unfold OTPPasswordPage_onChange, OTPPasswordPage_effect, setOtp.
    destruct onSuccess. case_ifs; cbn; auto.
  - destruct (String.eqb password confirmPassword) eqn:E; [discriminate |].
    unfold CreatePasswordPage_submitForm. rewrite E. cbn [negb].
    unfold setError. case_ifs; cbn; auto.
Qed.

Lemma commit_backedBy (l : list Timer) (a b : World) :
  backedBy l b -> backedBy l (commit a b).
Proof.
  unfold commit. destruct (sameKey a b); [auto |].
  intros _ H. cbn in H. discriminate.
Qed.

Lemma dispatch_backed (ev : Event) (w : World) :
  backedBy (timers w) w -> backedBy (timers (dispatch ev w)) (dispatch ev w).
Proof.
  intros Hw. destruct (render w) as [node |] eqn:Hr;
    [| unfold dispatch; rewrite Hr; exact Hw].
  destruct (submitTask node ev) as [k |] eqn:Hk.
  - destruct (dispatch_submit w node ev k Hr Hk) as (w0 & Hw0 & ->).
    intros _. eexists. split.
    + cbn [timers with_timers]. apply enqueue_In. left. reflexivity.
    + destruct Hw0 as [-> | ->]; reflexivity.
  - rewrite (dispatch_on w node) by assumption. rewrite commit_timers.
    apply commit_backedBy.
    destruct (handle_keeps_submission node ev w Hk) as (Hs & Ht & Hm).
    unfold backedBy. rewrite Hs, Ht, Hm. exact Hw.
Qed.

Lemma runTask_timers (tm : Timer) (w : World) : timers (runTask tm w) = timers w.
Proof.
  unfold runTask. destruct (task tm) as [| [idx]]; rewrite commit_timers.
  - unfold LoginPage_submitForm_resume, setIsSubmitting. case_ifs; reflexivity.
  - unfold submitForm_resume, setIsSubmitting. case_ifs; reflexivity.
Qed.

Lemma runTask_backedBy (tm : Timer) (rest : list Timer) (w : World) :
  backedBy (tm :: rest) w -> backedBy rest (runTask tm w).
Proof.
  intros Hw. unfold runTask.
  assert (forall h : World,
            mountId h = mountId w ->
            (Nat.eqb (owner tm) (mountId w) = false -> isSubmitting h = isSubmitting w) ->
            (Nat.eqb (owner tm) (mountId w) = true -> isSubmitting h = false) ->
            backedBy rest (commit w h)) as Hgen.
  { intros h Hm Hne Heq. apply commit_backedBy. intros Hs.
    destruct (Nat.eqb (owner tm) (mountId w)) eqn:E.
    - rewrite (Heq eq_refl) in Hs. discriminate.
    - rewrite (Hne eq_refl) in Hs. destruct (Hw Hs) as (x & [<- | Hx] & Ho).
      + apply Nat.eqb_neq in E. contradiction.
      + exists x. split; [exact Hx | congruence]. }
  destruct (task tm) as [| [idx]]; apply Hgen.
  - unfold LoginPage_submitForm_resume, setIsSubmitting. case_ifs; reflexivity.
  - unfold LoginPage_submitForm_resume, setIsSubmitting. cbn [mountId setPageIndex
      setPageType setStepperType countContinuation with_pageIndex with_stepperType
      with_continuationCalls]. intros ->. reflexivity.
  - unfold LoginPage_submitForm_resume, setIsSubmitting. cbn [mountId setPageIndex
      setPageType setStepperType countContinuation with_pageIndex with_stepperType
      with_continuationCalls]. intros ->. reflexivity.
  - unfold submitForm_resume, setIsSubmitting. case_ifs; reflexivity.
  - unfold submitForm_resume, setIsSubmitting. cbn [mountId call setPageIndex
      countContinuation with_pageIndex with_continuationCalls]. intros ->. reflexivity.
  - unfold submitForm_resume, setIsSubmitting. cbn [mountId call setPageIndex
      countContinuation with_pageIndex with_continuationCalls]. intros ->. reflexivity.
Qed.

Lemma fold_runTask_backedBy (ready waiting : list Timer) (w : World) :
  timers w = waiting ->
  backedBy (ready ++ waiting) w ->
  backedBy (timers (fold_left (fun acc tm => runTask tm acc) ready w))
           (fold_left (fun acc tm => runTask tm acc) ready w).
Proof.
  revert w. induction ready as [| tm ready IH]; intros w Ht Hw.
  - cbn. rewrite Ht. exact Hw.
  - cbn [fold_left]. apply IH.
    + rewrite runTask_timers. exact Ht.
    + apply runTask_backedBy. exact Hw.
Qed.

Lemma filter_split_In {A : Type} (p : A -> bool) (x : A) (l : list A) :
  In x l -> In x (List.filter p l ++ List.filter (fun y => negb (p y)) l).
Proof.
  intros H. apply in_or_app. rewrite !filter_In.
  destruct (p x) eqn:E; [left | right]; split; auto.
Qed.

Lemma step_backed (a : Action) (w : World) :
  backedBy (timers w) w -> backedBy (timers (step a w)) (step a w).
Proof.
  intros Hw. destruct a as [ev | dt | b]; cbn [step].
  - apply dispatch_backed. exact Hw.
  - unfold advance.
    apply (fold_runTask_backedBy _
             (List.filter (fun tm => negb (due tm <=? now w + dt)) (timers w)));
      [reflexivity |].
    intros Hs. destruct (Hw Hs) as (x & Hx & Ho).
    exists x. split; [apply filter_split_In; exact Hx | exact Ho].
  - unfold externalSetOnboardingComplete. rewrite commit_timers.
    apply commit_backedBy.
    unfold backedBy, setGlobalSetting_isOnboardingComplete, onboardingCompleteEffect.
    case_ifs; exact Hw.
Qed.

(** X2: in every reachable world a raised submitting flag comes with a
    pending timeout that the mounted screen scheduled, so the spinner is
    never shown with nothing left to take it down. *)
Theorem X2_submitting_flag_has_pending_timeout (w : World) :
  reachable w ->
  isSubmitting w = true ->
  exists tm, In tm (timers w) /\ owner tm = mountId w.
Proof.
  intros [actions <-].
  assert (backedBy (timers (initialWorld false)) (initialWorld false)) as H0.
  { intros H. cbn in H. discriminate. }
  revert H0. generalize (initialWorld false).
  induction actions as [| a actions IH]; intros w0 H0; [exact H0 |].
  rewrite run_cons. apply IH. apply step_backed. exact H0.
Qed.

Lemma X2_submitting_flag_has_pending_timeout_witness :
  let w := run [UI ClickLoginSignup; UI (SubmitLogin "user@example.com" "password1")]
               (initialWorld false) in
  isSubmitting w = true /\ exists tm, In tm (timers w) /\ owner tm = mountId w.
Proof.
  cbv zeta.
  assert (reachable (run [UI ClickLoginSignup;
                          UI (SubmitLogin "user@example.com" "password1")]
                         (initialWorld false))) as Hreach by (eexists; reflexivity).
  assert (isSubmitting (run [UI ClickLoginSignup;
                             UI (SubmitLogin "user@example.com" "password1")]
                            (initialWorld false)) = true) as Hs
    by (vm_compute; reflexivity).
  split; [exact Hs |].
  exact (X2_submitting_flag_has_pending_timeout _ Hreach Hs).
Defined.

(** ** Who writes the completion flag *)

Lemma handle_isOnboardingComplete (node : ReactNode) (ev : Event) (w : World) :
  isOnboardingComplete (handle node ev w) = isOnboardingComplete w \/
  ev = ClickBottom /\ bottom node = Some lastPagePrevAndNextButtons /\
  isOnboardingComplete (handle node ev w) = true.
Proof.
  destruct ev.
  11: { rewrite handle_ClickBottom. unfold handleBottom.
        destruct (bottom node) as [[| |] |]; try (left; reflexivity).
        right. rewrite completeOnboarding_spec. auto. }
  all: left; unfold handle; destruct (content node); try reflexivity.
  - unfold LoginPage_submitForm, setTimeout, setIsSubmitting. case_ifs; reflexivity.
  - unfold ResetPasswordPage_submitForm, setTimeout, setIsSubmitting. case_ifs; reflexivity.
  - unfold OTPPasswordPage_onChange, OTPPasswordPage_effect, setOtp.
    destruct onSuccess. case_ifs; reflexivity.
  - unfold CreatePasswordPage_submitForm, setTimeout, setIsSubmitting, setError.
    cbn [mountId with_error]. case_ifs; reflexivity.
  - unfold SignUpPage_submitForm, setTimeout, setIsSubmitting. case_ifs; reflexivity.
Qed.

Lemma runTask_services (tm : Timer) (w : World) :
  isOnboardingComplete (runTask tm w) = isOnboardingComplete w /\
  captured (runTask tm w) = captured w.
Proof.
  unfold runTask. destruct (task tm) as [| [idx]];
    rewrite commit_isOnboardingComplete, commit_captured.
  - unfold LoginPage_submitForm_resume, setIsSubmitting. case_ifs; split; reflexivity.
  - unfold submitForm_resume, setIsSubmitting. case_ifs; split; reflexivity.
Qed.

Lemma advance_services (dt : Z) (w : World) :
  isOnboardingComplete (advance dt w) = isOnboardingComplete w /\
  captured (advance dt w) = captured w.
Proof.
  unfold advance.
  set (w0 := with_now _ _).
  change (isOnboardingComplete w) with (isOnboardingComplete w0).
  change (captured w) with (captured w0).
  generalize w0. clear w0.
  induction (List.filter (fun tm => due tm <=? now w + dt) (timers w)) as [| tm l IH];
    intros w0; [split; reflexivity |].
  cbn [fold_left]. destruct (IH (runTask tm w0)) as [-> ->]. apply runTask_services.
Qed.

(** X3: the completion flag is written by one action only.  Timers never
    touch it nor the captured events, and an event that raises it is the
    click on the bottom button of the settings-import screen. *)
Theorem X3_only_the_terminal_button_completes (w : World) (ev : Event) (dt : Z) :
  isOnboardingComplete w = false ->
  isOnboardingComplete (advance dt w) = false /\
  captured (advance dt w) = captured w /\
  (isOnboardingComplete (dispatch ev w) = true ->
   ev = ClickBottom /\ content <$> render w = Some SettingsAndThemes).
Proof.
  intros Hf. destruct (advance_services dt w) as [-> ->].
  split; [exact Hf | split; [reflexivity |]].
  unfold dispatch. destruct (render w) as [node |] eqn:Hr; [| congruence].
  rewrite commit_isOnboardingComplete. intros Ht.
  destruct (handle_isOnboardingComplete node ev w) as [He | (-> & Hb & _)];
    [congruence |].
  split; [reflexivity |]. cbn.
  assert (lookupPage (stepperType w) (pageIndex w) = Some node) as Hl by exact Hr.
  apply lookupPage_bottom in Hl. rewrite Hb in Hl. rewrite Hl. reflexivity.
Qed.

Lemma X3_only_the_terminal_button_completes_witness :
  let w := run signInPath (initialWorld false) in
  isOnboardingComplete w = false /\
  isOnboardingComplete (dispatch ClickBottom w) = true /\
  content <$> render w = Some SettingsAndThemes.
Proof.
  cbv zeta.
  assert (isOnboardingComplete (run signInPath (initialWorld false)) = false) as Hf
    by (vm_compute; reflexivity).
  assert (isOnboardingComplete (dispatch ClickBottom (run signInPath (initialWorld false)))
          = true) as Ht by (vm_compute; reflexivity).
  destruct (X3_only_the_terminal_button_completes _ ClickBottom 0 Hf) as (_ & _ & H).
  destruct (H Ht) as [_ Hc].
  split; [exact Hf |]. split; [exact Ht | exact Hc].
Defined.

(** X4: once the flag is set, no click, no input and no timer unsets it:
    through every sequence of user and clock actions the overlay stays
    hidden.  Only a write from outside shows the wizard again. *)
Theorem X4_completed_wizard_stays_hidden (actions : list Action) (w : World) :
  forallb isInternal actions = true ->
  isOnboardingComplete w = true ->
  isOnboardingComplete (run actions w) = true /\
  overlayHidden (run actions w) = true.
Proof.
  intros Ha Hf.
  assert (isOnboardingComplete (run actions w) = true) as H.
  { revert w Hf. induction actions as [| a actions IH]; intros w Hf; [exact Hf |].
    cbn [forallb] in Ha. apply andb_true_iff in Ha. destruct Ha as [Hi Ha].
    rewrite run_cons. apply (IH Ha).
    destruct a as [ev | dt | b]; [| | discriminate]; cbn [step].
    - unfold dispatch. destruct (render w) as [node |]; [| exact Hf].
      rewrite commit_isOnboardingComplete.
      destruct (handle_isOnboardingComplete node ev w) as [-> | (_ & _ & ->)];
        [exact Hf | reflexivity].
    - destruct (advance_services dt w) as [-> _]. exact Hf. }
  split; [exact H |]. unfold overlayHidden. rewrite H. reflexivity.
Qed.

Lemma X4_completed_wizard_stays_hidden_witness :
  let w := run (signInPath ++ [UI ClickBottom]) (initialWorld false) in
  let later := run [UI ClickBottom; Wait 5000; UI (ChangeOtp "123456")] w in
  isOnboardingComplete w = true /\ overlayHidden later = true.
Proof.
  cbv zeta.
  assert (isOnboardingComplete (run (signInPath ++ [UI ClickBottom]) (initialWorld false))
          = true) as Hf by (vm_compute; reflexivity).
  destruct (X4_completed_wizard_stays_hidden
              [UI ClickBottom; Wait 5000; UI (ChangeOtp "123456")] _ eq_refl Hf)
    as [_ Hh].
  split; [exact Hf | exact Hh].
Defined.

(** ** Remount by key *)



(** ** A submission and its timeout *)

Lemma lookupPage_form_has_prevButton (t : StepperFlowType) (i : Z) (node : ReactNode)
    (ev : Event) (f : VoidFunction) :
  lookupPage t i = Some node ->
  submitTask node ev = Some (FormSubmitResume f) ->
  bottom node = Some prevButton /\ 2 <= i <= 4 /\ f <> GoToPage (i - 1).
Proof.
  destruct t; cbn [lookupPage];
    unfold signInStepperFlow, signUpStepperFlow, stepperFlowStartingPoint; intros H;
    split_index i;
    try (rewrite lookup_empty in H; discriminate);
    injection H as <-; unfold submitTask; destruct ev; cbn; try discriminate;
    try (destruct (String.eqb password confirmPassword); [| discriminate]);
    intros [= <-]; (split; [reflexivity | split; [lia | discriminate]]).
Qed.

(** One submission on an idle queue, then 1500 ms: the continuation has run
    once, the queue is idle again, and when the page changed the screen is
    fresh. *)
Lemma submit_then_wait (w : World) (node : ReactNode) (ev : Event) (idx : Z) :
  render w = Some node ->
  submitTask node ev = Some (FormSubmitResume (GoToPage idx)) ->
  timers w = [] ->
  stepperType (advance 1500 (dispatch ev w)) = stepperType w /\
  pageIndex (advance 1500 (dispatch ev w)) = idx /\
  timers (advance 1500 (dispatch ev w)) = [] /\
  continuationCalls (advance 1500 (dispatch ev w)) = S (continuationCalls w) /\
  (idx <> pageIndex w -> otp (advance 1500 (dispatch ev w)) = ""%string).
Proof.
  intros Hr Hk Ht.
  destruct (dispatch_submit w node ev _ Hr Hk) as (w0 & Hw0 & ->).
  rewrite Ht. cbn [enqueue]. unfold advance.
  cbn [timers now with_timers with_isSubmitting List.filter due].
  assert (now w0 = now w) as -> by (destruct Hw0 as [-> | ->]; reflexivity).
  rewrite Z.leb_refl. cbn [negb fold_left]. unfold runTask. cbn [task owner].
  rewrite commit_stepperType, commit_pageIndex, commit_timers, commit_continuationCalls.
  unfold submitForm_resume, setIsSubmitting.
  assert (stepperType w0 = stepperType w /\ pageIndex w0 = pageIndex w /\
          continuationCalls w0 = continuationCalls w) as (Hs & Hp & Hc)
    by (destruct Hw0 as [-> | ->]; repeat split; reflexivity).
  split; [case_ifs; cbn; exact Hs |].
  split; [case_ifs; reflexivity |].
  split; [case_ifs; reflexivity |].
  split; [case_ifs; cbn; congruence |].
  intros Hne. unfold commit.
  match goal with |- context [sameKey ?a ?b] => destruct (sameKey a b) eqn:E end;
    [| reflexivity].
  exfalso. apply sameKey_spec in E. destruct E as [_ E]. revert E.
  case_ifs; cbn; congruence.
Qed.

(** X6: a timeout is not cancelled when its screen is unmounted.  After a
    submission on any form screen, going Back within the delay shows the
    previous page, and when the timeout is due the continuation still runs
    and moves the wizard to the page it names, away from where the user
    went. *)
Theorem X6_timeout_survives_going_back (w : World) (node : ReactNode) (ev : Event)
    (idx : Z) :
  render w = Some node ->
  submitTask node ev = Some (FormSubmitResume (GoToPage idx)) ->
  timers w = [] ->
  let back := dispatch ClickBottom (dispatch ev w) in
  let late := advance 1500 back in
  pageIndex back = pageIndex w - 1 /\
  stepperType back = stepperType w /\
  pageIndex late = idx /\
  idx <> pageIndex back /\
  continuationCalls late = S (continuationCalls w).
Proof.
  intros Hr Hk Ht back late.
  assert (lookupPage (stepperType w) (pageIndex w) = Some node) as Hl by exact Hr.
  destruct (lookupPage_form_has_prevButton _ _ _ _ _ Hl Hk) as (Hb & Hi & Hne).
  destruct (dispatch_submit w node ev _ Hr Hk) as (w0 & Hw0 & Hd).
  set (w1 := dispatch ev w) in *.
  assert (stepperType w1 = stepperType w /\ pageIndex w1 = pageIndex w /\
          now w1 = now w /\ continuationCalls w1 = continuationCalls w /\
          timers w1 = [{| due := now w + 1500; owner := mountId w;
                          task := FormSubmitResume (GoToPage idx) |}])
    as (Hs1 & Hp1 & Hn1 & Hc1 & Ht1).
  { rewrite Hd, Ht. destruct Hw0 as [-> | ->]; repeat split; reflexivity. }
  assert (render w1 = Some node) as Hr1 by (unfold render; rewrite Hs1, Hp1; exact Hr).
  assert (back = commit w1 (setPageIndex (Updater (fun i => i - 1)) w1)) as Hback.
  { subst back. rewrite (dispatch_on w1 node) by assumption.
    rewrite handle_ClickBottom, Hb. reflexivity. }
  assert (pageIndex back = pageIndex w - 1) as Hpb.
  { rewrite Hback, commit_pageIndex. cbn. rewrite Hp1. reflexivity. }
  assert (stepperType back = stepperType w) as Hsb.
  { rewrite Hback, commit_stepperType. exact Hs1. }
  split; [exact Hpb |]. split; [exact Hsb |].
  assert (timers back = timers w1 /\ now back = now w /\
          continuationCalls back = continuationCalls w) as (Htb & Hnb & Hcb).
  { rewrite Hback, commit_timers, commit_now, commit_continuationCalls.
    cbn. auto. }
  subst late. unfold advance. rewrite Htb, Ht1, Hnb.
  cbn [List.filter due]. rewrite Z.leb_refl. cbn [negb fold_left].
  unfold runTask. cbn [task owner].
  rewrite commit_pageIndex, commit_continuationCalls.
  unfold submitForm_resume, setIsSubmitting.
  split; [case_ifs; reflexivity |].
  split; [rewrite Hpb; congruence |].
  case_ifs; cbn; congruence.
Qed.

Lemma X6_timeout_survives_going_back_witness :
  let w := run [UI ClickLoginSignup; UI ClickForgotPassword] (initialWorld false) in
  let back := dispatch ClickBottom (dispatch (SubmitResetPassword "user@example.com") w) in
  pageIndex w = 2 /\ pageIndex back = 2 - 1 /\ pageIndex (advance 1500 back) = 3.
Proof.
  cbv zeta.
  assert (render (run [UI ClickLoginSignup; UI ClickForgotPassword] (initialWorld false))
          = Some {| shell := OnboardingFormPageShell;
                    title := Some "Enter your email"%string;
                    content := ResetPasswordPage (GoToPage 3);
                    bottom := Some prevButton |}) as Hr by (vm_compute; reflexivity).
  assert (timers (run [UI ClickLoginSignup; UI ClickForgotPassword] (initialWorld false))
          = []) as Ht by (vm_compute; reflexivity).
  assert (pageIndex (run [UI ClickLoginSignup; UI ClickForgotPassword]
                         (initialWorld false)) = 2) as Hp by (vm_compute; reflexivity).
  pose proof (X6_timeout_survives_going_back _ _ (SubmitResetPassword "user@example.com")
                3 Hr eq_refl Ht) as H.
  cbv zeta in H. destruct H as (Hb & _ & Hl & _).
  split; [exact Hp |]. split; [rewrite Hb, Hp; reflexivity | exact Hl].
Defined.

(** ** Whole paths *)

Lemma render_from_key (w : World) (t : StepperFlowType) (i : Z) :
  stepperType w = t -> pageIndex w = i -> render w = lookupPage t i.
Proof. intros <- <-. reflexivity. Qed.

(** The node of a key, with the content it holds. *)
Ltac node_at w t i Hs Hp node Hr :=
  let Hl := fresh "Hl" in
  destruct (lookupPage t i) as [node |] eqn:Hl; [| vm_compute in Hl; discriminate];
  assert (render w = Some node) as Hr by (rewrite <- Hl; apply render_from_key; assumption);
  vm_compute in Hl; injection Hl as Hl; subst node.

(** X7: the password-reset path of the sign-in flow.  From the credential
    screen of either flow, "Forgot your password?", any email, any code of
    six characters and any password entered twice lead through the email,
    code and new-password screens to the settings-import screen. *)
Theorem X7_password_reset_path (w : World) (node : ReactNode)
    (email code password : string) :
  render w = Some node ->
  content node = LoginPage ->
  timers w = [] ->
  String.length code = 6%nat ->
  let a := dispatch ClickForgotPassword w in
  let b := advance 1500 (dispatch (SubmitResetPassword email) a) in
  let c := dispatch (ChangeOtp code) b in
  let d := advance 1500 (dispatch (SubmitCreatePassword password password) c) in
  content <$> render a = Some (ResetPasswordPage (GoToPage 3)) /\
  content <$> render b = Some (OTPPasswordPage "test@proton.com" (GoToPage 4)) /\
  content <$> render c = Some (CreatePasswordPage (GoToPage 6)) /\
  stepperType d = signIn /\
  render d = Some renderLastStep.
Proof.
  intros Hr Hc Ht Hlen a b c d.
  (* a: the email screen *)
  assert (stepperType a = signIn /\ pageIndex a = 2 /\ timers a = []) as (Hsa & Hpa & Hta).
  { subst a. rewrite (dispatch_on w node) by assumption. unfold handle. rewrite Hc.
    rewrite commit_stepperType, commit_pageIndex, commit_timers. cbn. auto. }
  node_at a signIn 2 Hsa Hpa na Hra.
  (* b: the code screen *)
  destruct (submit_then_wait a _ (SubmitResetPassword email) 3 Hra eq_refl Hta)
    as (Hsb & Hpb & Htb & _ & Hob).
  fold b in Hsb, Hpb, Htb, Hob. rewrite Hsa in Hsb.
  assert (otp b = ""%string) as Hob' by (apply Hob; rewrite Hpa; discriminate).
  node_at b signIn 3 Hsb Hpb nb Hrb.
  (* c: the new-password screen *)
  assert (c = commit b (call (GoToPage 4) (countContinuation (with_otp code b)))) as Hc'.
  { subst c. apply (dispatch_ChangeOtp_length_6 b _ "test@proton.com" (GoToPage 4) code Hrb);
      [reflexivity | rewrite Hob'; discriminate | exact Hlen]. }
  assert (stepperType c = signIn /\ pageIndex c = 4 /\ timers c = []) as (Hsc & Hpc & Htc).
  { rewrite Hc', commit_stepperType, commit_pageIndex, commit_timers. cbn. auto. }
  node_at c signIn 4 Hsc Hpc nc Hrc.
  (* d: the settings-import screen *)
  assert (submitTask
            {| shell := OnboardingFormPageShell;
               title := Some "Create new password"%string;
               content := CreatePasswordPage (GoToPage 6);
               bottom := Some prevButton |}
            (SubmitCreatePassword password password)
          = Some (FormSubmitResume (GoToPage 6))) as Hk.
  { unfold submitTask. cbn [content]. rewrite String.eqb_refl. reflexivity. }
  destruct (submit_then_wait c _ _ 6 Hrc Hk Htc) as (Hsd & Hpd & _).
  fold d in Hsd, Hpd. rewrite Hsc in Hsd.
  rewrite Hra, Hrb, Hrc.
  split; [reflexivity |]. split; [reflexivity |]. split; [reflexivity |].
  split; [exact Hsd |].
  rewrite (render_from_key d signIn 6 Hsd Hpd). vm_compute. reflexivity.
Qed.

Lemma X7_password_reset_path_witness :
  let w := run [UI ClickLoginSignup] (initialWorld false) in
  let a := dispatch ClickForgotPassword w in
  let b := advance 1500 (dispatch (SubmitResetPassword "user@example.com") a) in
  let c := dispatch (ChangeOtp "123456") b in
  let d := advance 1500 (dispatch (SubmitCreatePassword "password1" "password1") c) in
  content <$> render w = Some LoginPage /\ render d = Some renderLastStep.
Proof.
  cbv zeta.
  assert (render (run [UI ClickLoginSignup] (initialWorld false))
          = Some {| shell := OnboardingFormPageShell; title := Some "Sign in"%string;
                    content := LoginPage; bottom := None |}) as Hr
    by (vm_compute; reflexivity).
  assert (timers (run [UI ClickLoginSignup] (initialWorld false)) = []) as Ht
    by (vm_compute; reflexivity).
  pose proof (X7_password_reset_path _ _ "user@example.com" "123456" "password1"
                Hr eq_refl Ht eq_refl) as H.
  cbv zeta in H. destruct H as (_ & _ & _ & _ & Hd).
  split; [rewrite Hr; reflexivity | exact Hd].
Defined.

(** X8: the sign-up path.  From the credential screen of either flow,
    "Sign up", any first and last name and any password entered twice lead
    through the registration and password screens to the settings-import
    screen, in the sign-up flow. *)
Theorem X8_sign_up_path (w : World) (node : ReactNode)
    (firstName lastName password : string) :
  render w = Some node ->
  content node = LoginPage ->
  timers w = [] ->
  let a := dispatch ClickSignUp w in
  let b := advance 1500 (dispatch (SubmitSignUp firstName lastName) a) in
  let c := advance 1500 (dispatch (SubmitCreatePassword password password) b) in
  content <$> render a = Some (SignUpPage (GoToPage 3)) /\
  content <$> render b = Some (CreatePasswordPage (GoToPage 4)) /\
  stepperType c = signUp /\
  render c = Some renderLastStep.
Proof.
  intros Hr Hc Ht a b c.
  assert (lookupPage (stepperType w) (pageIndex w) = Some node) as Hl by exact Hr.
  apply lookupPage_inv in Hl. rewrite Hc in Hl.
  assert (stepperType a = signUp /\ pageIndex a = 2 /\ timers a = []) as (Hsa & Hpa & Hta).
  { subst a. rewrite (dispatch_on w node) by assumption. unfold handle. rewrite Hc.
    rewrite commit_stepperType, commit_pageIndex, commit_timers. cbn.
    rewrite Hl. auto. }
  node_at a signUp 2 Hsa Hpa na Hra.
  destruct (submit_then_wait a _ (SubmitSignUp firstName lastName) 3 Hra eq_refl Hta)
    as (Hsb & Hpb & Htb & _).
  fold b in Hsb, Hpb, Htb. rewrite Hsa in Hsb.
  node_at b signUp 3 Hsb Hpb nb Hrb.
  assert (submitTask
            {| shell := OnboardingFormPageShell;
               title := Some "Create password"%string;
               content := CreatePasswordPage (GoToPage 4);
               bottom := Some prevButton |}
            (SubmitCreatePassword password password)
          = Some (FormSubmitResume (GoToPage 4))) as Hk.
  { unfold submitTask. cbn [content]. rewrite String.eqb_refl. reflexivity. }
  destruct (submit_then_wait b _ _ 4 Hrb Hk Htb) as (Hsc & Hpc & _).
  fold c in Hsc, Hpc. rewrite Hsb in Hsc.
  rewrite Hra, Hrb.
  split; [reflexivity |]. split; [reflexivity |]. split; [exact Hsc |].
  rewrite (render_from_key c signUp 4 Hsc Hpc). vm_compute. reflexivity.
Qed.

Lemma X8_sign_up_path_witness :
  let w := run [UI ClickLoginSignup] (initialWorld false) in
  let a := dispatch ClickSignUp w in
  let b := advance 1500 (dispatch (SubmitSignUp "Ada" "Lovelace") a) in
  let c := advance 1500 (dispatch (SubmitCreatePassword "password1" "password1") b) in
  content <$> render w = Some LoginPage /\ stepperType c = signUp /\
  render c = Some renderLastStep.
Proof.
  cbv zeta.
  assert (render (run [UI ClickLoginSignup] (initialWorld false))
          = Some {| shell := OnboardingFormPageShell; title := Some "Sign in"%string;
                    content := LoginPage; bottom := None |}) as Hr
    by (vm_compute; reflexivity).
  assert (timers (run [UI ClickLoginSignup] (initialWorld false)) = []) as Ht
    by (vm_compute; reflexivity).
  pose proof (X8_sign_up_path _ _ "Ada" "Lovelace" "password1" Hr eq_refl Ht) as H.
  cbv zeta in H. destruct H as (_ & _ & Hs & Hd).
  split; [rewrite Hr; reflexivity |]. split; [exact Hs | exact Hd].
Defined.

(** ** The inline error of the create-password form *)

Lemma enqueue_length (tm : Timer) (q : list Timer) :
  length (enqueue tm q) = S (length q).
Proof.
  induction q as [| x q IH]; [reflexivity |].
  cbn [enqueue]. destruct (due x <=? due tm); cbn [length]; [rewrite IH |]; reflexivity.
Qed.

(** X9: an inline error does not block the form.  After a submission with
    two different passwords has set the error, a submission with the
    password entered twice clears the error, raises the submitting flag and
    schedules its timeout. *)
Theorem X9_valid_resubmission_clears_error (w : World) (node : ReactNode)
    (onSuccess : VoidFunction) (password confirmPassword : string) :
  render w = Some node ->
  content node = CreatePasswordPage onSuccess ->
  password <> confirmPassword ->
  let w1 := dispatch (SubmitCreatePassword password confirmPassword) w in
  let w2 := dispatch (SubmitCreatePassword password password) w1 in
  error w1 = "Passwords do not match"%string /\
  error w2 = ""%string /\
  isSubmitting w2 = true /\
  length (timers w2) = S (length (timers w)).
Proof.
  intros Hr Hc Hne w1 w2.
  assert (w1 = with_error "Passwords do not match" w) as Hw1.
  { subst w1. rewrite (dispatch_on w node) by assumption.
    unfold handle. rewrite Hc.
    rewrite CreatePasswordPage_submitForm_mismatch by assumption.
    apply commit_same; reflexivity. }
  assert (render w1 = Some node) as Hr1 by (rewrite Hw1; exact Hr).
  assert (w2 = with_timers
                 (enqueue {| due := now w1 + 1500; owner := mountId w1;
                             task := FormSubmitResume onSuccess |} (timers w1))
                 (with_isSubmitting true (with_error "" w1))) as Hw2.
  { subst w2. rewrite (dispatch_on w1 node) by assumption.
    unfold handle. rewrite Hc.
    unfold CreatePasswordPage_submitForm. rewrite String.eqb_refl. cbn [negb].
    unfold setError. rewrite Nat.eqb_refl.
    unfold setIsSubmitting. cbn [mountId with_error]. rewrite Nat.eqb_refl.
    apply commit_same; reflexivity. }
  split; [rewrite Hw1; reflexivity |].
  rewrite Hw2. cbn [error isSubmitting timers with_timers with_isSubmitting with_error].
  split; [reflexivity | split; [reflexivity |]].
  rewrite enqueue_length, Hw1. reflexivity.
Qed.

Lemma X9_valid_resubmission_clears_error_witness :
  let w := run (firstn 5 signUpPath) (initialWorld false) in
  let w1 := dispatch (SubmitCreatePassword "password1" "password2") w in
  let w2 := dispatch (SubmitCreatePassword "password1" "password1") w1 in
  error w1 = "Passwords do not match"%string /\ error w2 = ""%string /\
  isSubmitting w2 = true.
Proof.
  cbv zeta.
  assert (render (run (firstn 5 signUpPath) (initialWorld false))
          = Some {| shell := OnboardingFormPageShell; title := Some "Create password"%string;
                    content := CreatePasswordPage (GoToPage 4);
                    bottom := Some prevButton |}) as Hr by (vm_compute; reflexivity).
  assert ("password1"%string <> "password2"%string) as Hne by discriminate.
  pose proof (X9_valid_resubmission_clears_error _ _ (GoToPage 4) _ _ Hr eq_refl Hne) as H.
  cbv zeta in H. destruct H as (H1 & H2 & H3 & _).
  split; [exact H1 |]. split; [exact H2 | exact H3].
Defined.

(** ** Going back *)

(** X10: Back never leads to a blank step.  On every screen that has a Back
    button the click keeps the flow type and lands on an earlier index that
    the table defines: one less for [prevButton], the credential screen for
    the return button of the email-code screen. *)
Theorem X10_back_lands_on_a_screen (w : World) (node : ReactNode) :
  render w = Some node ->
  bottom node = Some prevButton \/ bottom node = Some returnToSignInButton ->
  let w' := dispatch ClickBottom w in
  stepperType w' = stepperType w /\
  1 <= pageIndex w' < pageIndex w /\
  is_Some (render w').
Proof.
  intros Hr Hb w'.
  assert (lookupPage (stepperType w) (pageIndex w) = Some node) as Hl by exact Hr.
  apply lookupPage_bottom in Hl.
  assert (stepperType w' = stepperType w /\ 1 <= pageIndex w' < pageIndex w)
    as [Hs Hp].
  { subst w'. rewrite (dispatch_on w node) by assumption.
    rewrite handle_ClickBottom, commit_stepperType, commit_pageIndex.
    destruct Hb as [Hb | Hb]; rewrite Hb in Hl |- *; cbn;
      (split; [reflexivity |]); [lia |].
    destruct Hl as [_ ->]. lia. }
  split; [exact Hs |]. split; [exact Hp |].
  unfold render. apply lookupPage_keys.
  assert (pageIndex w <= 5) by
    (destruct Hb as [Hb | Hb]; rewrite Hb in Hl; [lia | destruct Hl; lia]).
  destruct (stepperType w'); cbn; lia.
Qed.

Lemma X10_back_lands_on_a_screen_witness :
  let w := run [UI ClickLoginSignup; UI ClickEmailSignInCode] (initialWorld false) in
  pageIndex w = 5 /\ 1 <= pageIndex (dispatch ClickBottom w) < 5 /\
  is_Some (render (dispatch ClickBottom w)).
Proof.
  cbv zeta.
  assert (render (run [UI ClickLoginSignup; UI ClickEmailSignInCode] (initialWorld false))
          = Some {| shell := OnboardingFormPageShell;
                    title := Some "Check your email"%string;
                    content := OTPPasswordPage "test_verify_code@proton.com" (GoToPage 6);
                    bottom := Some returnToSignInButton |}) as Hr
    by (vm_compute; reflexivity).
  assert (pageIndex (run [UI ClickLoginSignup; UI ClickEmailSignInCode]
                         (initialWorld false)) = 5) as Hp by (vm_compute; reflexivity).
  pose proof (X10_back_lands_on_a_screen _ _ Hr (or_intror eq_refl)) as H.
  cbv zeta in H. destruct H as (_ & Hi & Hs). rewrite Hp in Hi.
  split; [exact Hp |]. split; [exact Hi | exact Hs].
Defined.

(** ** The email-code link *)

(** X11: "Email sign-in code" sets the page index to 5 and, unlike the two
    other ways out of the credential screen, leaves the flow type as it is.
    In the sign-in flow that is the code screen, from which a code of six
    characters leads to the settings-import screen; in the sign-up flow it
    is a blank step. *)
Theorem X11_email_code_link_keeps_flow (w : World) (node : ReactNode) (code : string) :
  render w = Some node ->
  content node = LoginPage ->
  String.length code = 6%nat ->
  let a := dispatch ClickEmailSignInCode w in
  let b := dispatch (ChangeOtp code) a in
  stepperType a = stepperType w /\
  pageIndex a = 5 /\
  match stepperType w with
  | signIn =>
      content <$> render a
      = Some (OTPPasswordPage "test_verify_code@proton.com" (GoToPage 6)) /\
      render b = Some renderLastStep
  | signUp => render a = None /\ b = a
  end.
Proof.
  intros Hr Hc Hlen a b.
  assert (lookupPage (stepperType w) (pageIndex w) = Some node) as Hl by exact Hr.
  apply lookupPage_inv in Hl. rewrite Hc in Hl.
  assert (a = commit w (setPageIndex (Value 5) w)) as Ha.
  { subst a. rewrite (dispatch_on w node) by assumption. unfold handle. rewrite Hc.
    reflexivity. }
  assert (stepperType a = stepperType w /\ pageIndex a = 5) as [Hsa Hpa].
  { rewrite Ha, commit_stepperType, commit_pageIndex. split; reflexivity. }
  assert (otp a = ""%string) as Hoa.
  { rewrite Ha. unfold commit.
    destruct (sameKey w (setPageIndex (Value 5) w)) eqn:E; [| reflexivity].
    apply sameKey_spec in E. destruct E as [_ E]. cbn in E. lia. }
  split; [exact Hsa |]. split; [exact Hpa |].
  destruct (stepperType w) eqn:Et.
  - node_at a signIn 5 Hsa Hpa na Hra. rewrite Hra. split; [reflexivity |].
    assert (b = commit a (call (GoToPage 6) (countContinuation (with_otp code a)))) as Hb.
    { subst b.
      apply (dispatch_ChangeOtp_length_6 a _ "test_verify_code@proton.com" (GoToPage 6)
               code Hra); [reflexivity | rewrite Hoa; discriminate | exact Hlen]. }
    assert (stepperType b = signIn /\ pageIndex b = 6) as [Hsb Hpb].
    { rewrite Hb, commit_stepperType, commit_pageIndex. cbn. auto. }
    rewrite (render_from_key b signIn 6 Hsb Hpb). vm_compute. reflexivity.
  - assert (render a = None) as Hra.
    { rewrite (render_from_key a signUp 5 Hsa Hpa). vm_compute. reflexivity. }
    split; [exact Hra |]. subst b. unfold dispatch. rewrite Hra. reflexivity.
Qed.

Lemma X11_email_code_link_keeps_flow_witness :
  let w := run [UI ClickLoginSignup] (initialWorld false) in
  let a := dispatch ClickEmailSignInCode w in
  stepperType w = signIn /\ pageIndex a = 5 /\
  render (dispatch (ChangeOtp "123456") a) = Some renderLastStep.
Proof.
  cbv zeta.
  assert (render (run [UI ClickLoginSignup] (initialWorld false))
          = Some {| shell := OnboardingFormPageShell; title := Some "Sign in"%string;
                    content := LoginPage; bottom := None |}) as Hr
    by (vm_compute; reflexivity).
  assert (stepperType (run [UI ClickLoginSignup] (initialWorld false)) = signIn) as Hs
    by (vm_compute; reflexivity).
  pose proof (X11_email_code_link_keeps_flow _ _ "123456" Hr eq_refl eq_refl) as H.
  cbv zeta in H. rewrite Hs in H. destruct H as (_ & Hp & _ & Hb).
  split; [exact Hs |]. split; [exact Hp | exact Hb].
Defined.

(** ** The provider remembered per intent category *)

(** X12: [setSelectedProvider] writes the slot of the active intent category
    and no other: the provider read back is the one written, and after a
    switch to another category the provider read there is the one that
    category had before the write. *)
Theorem X12_provider_slots_are_independent (w : World) (provider : ProviderName)
    (other : WantToUseOption) :
  other <> wantToUseOption w ->
  getSelectedProvider (setSelectedProvider provider w) = provider /\
  wantToUseOption (setSelectedProvider provider w) = wantToUseOption w /\
  getSelectedProvider (with_wantToUseOption other (setSelectedProvider provider w))
  = getSelectedProvider (with_wantToUseOption other w) /\
  pageIndex (setSelectedProvider provider w) = pageIndex w /\
  stepperType (setSelectedProvider provider w) = stepperType w.
Proof.
  intros Hne. unfold getSelectedProvider, setSelectedProvider.
  destruct (wantToUseOption w) eqn:E, other; try contradiction;
    cbn; rewrite ?E; repeat split; reflexivity.
Qed.

Lemma X12_provider_slots_are_independent_witness :
  let w := setSelectedProvider "openAI" (initialWorld false) in
  getSelectedProvider w = "openAI"%string /\
  getSelectedProvider (with_wantToUseOption private w) = "ollama"%string.
Proof.
  cbv zeta.
  assert (private <> wantToUseOption (initialWorld false)) as Hne by discriminate.
  destruct (X12_provider_slots_are_independent (initialWorld false) "openAI" private Hne)
    as (Hg & _ & Ho & _).
  split; [exact Hg |]. rewrite Ho. reflexivity.
Defined.

(** ** The provider tabs *)

Lemma includes_In (l : list string) (x : string) :
  ProviderTabs.includes l x = true <-> In x l.
Proof.
  unfold ProviderTabs.includes. rewrite existsb_exists. split.
  - intros (y & Hy & He). apply String.eqb_eq in He. subst y. exact Hy.
  - intros H. exists x. split; [exact H | apply String.eqb_refl].
Qed.

(** X13: the four tabs cover the providers without showing one twice under
    Paid: a provider of [providerNames] is listed under Paid exactly when it
    is listed under none of Free, Local and Cloud/Other, and Paid lists
    nothing that is not in [providerNames]. *)
Theorem X13_paid_tab_is_the_rest (providerNames localProviderNames : list ProviderName)
    (pn : ProviderName) :
  let tab := ProviderTabs.providerNamesOfTab providerNames localProviderNames in
  (In pn (tab AddProviders.Paid) -> In pn providerNames) /\
  (In pn providerNames ->
   (In pn (tab AddProviders.Paid) <->
    ~ (In pn (tab AddProviders.Free) \/ In pn (tab AddProviders.Local) \/
       In pn (tab AddProviders.CloudOther)))).
Proof.
  cbv zeta. unfold ProviderTabs.providerNamesOfTab.
  split.
  - intros H. apply filter_In in H. tauto.
  - intros Hin. rewrite filter_In, negb_true_iff.
    rewrite <- not_true_iff_false, includes_In, !in_app_iff. tauto.
Qed.

Lemma X13_paid_tab_is_the_rest_witness :
  let tab := ProviderTabs.providerNamesOfTab
               ["anthropic"; "gemini"; "ollama"; "liteLLM"]%string ["ollama"]%string in
  In "anthropic"%string (tab AddProviders.Paid) /\
  ~ In "gemini"%string (tab AddProviders.Paid).
Proof.
  cbv zeta.
  destruct (X13_paid_tab_is_the_rest ["anthropic"; "gemini"; "ollama"; "liteLLM"]%string
              ["ollama"]%string "anthropic"%string) as [_ Ha].
  destruct (X13_paid_tab_is_the_rest ["anthropic"; "gemini"; "ollama"; "liteLLM"]%string
              ["ollama"]%string "gemini"%string) as [_ Hg].
  cbv zeta in Ha, Hg. split.
  - apply Ha; [cbn; auto |]. cbn. intros [H | [H | H]];
      repeat (destruct H as [H | H]; [discriminate |]); exact H.
  - intros H. apply Hg in H; [| cbn; auto]. apply H. left. cbn. auto.
Defined.

(** ** The message of the provider-setup screen *)

Lemma setErrorMessage_matches {S : Type} (m : option string)
    (s : AddProviders.State S) :
  timeoutMatchesMessage s -> timeoutMatchesMessage (AddProviders.setErrorMessage m s).
Proof.
  intros H. unfold AddProviders.setErrorMessage.
  destruct (AddProviders.sameMessage (AddProviders.errorMessage s) m); [exact H |].
  unfold timeoutMatchesMessage. cbn.
  destruct (AddProviders.truthy m); [split; [reflexivity | lia] | reflexivity].
Qed.

Lemma advance_matches {S : Type} (dt : Z) (s : AddProviders.State S) :
  0 <= dt -> timeoutMatchesMessage s -> timeoutMatchesMessage (AddProviders.advance dt s).
Proof.
  intros Hdt H. unfold AddProviders.advance.
  unfold timeoutMatchesMessage in H.
  destruct (AddProviders.timeoutId s) as [d |] eqn:Et; rewrite ?Et.
  - destruct H as [Hm Hd].
    destruct (d <=? AddProviders.now s + dt).
    + destruct (AddProviders.errorMessage s) as [x |] eqn:Em; [| discriminate].
      unfold AddProviders.setErrorMessage. cbn. reflexivity.
    + unfold timeoutMatchesMessage. cbn. rewrite ?Et. split; [exact Hm | lia].
  - unfold timeoutMatchesMessage. cbn. rewrite ?Et. exact H.
Qed.

Lemma providersStep_matches {S : Type}
    (isFeatureNameDisabled : AddProviders.FeatureName -> S -> bool)
    (ev : ProvidersEvent) (s : AddProviders.State S) :
  timeoutMatchesMessage s -> timeoutMatchesMessage (providersStep isFeatureNameDisabled ev s).
Proof.
  intros H. destruct ev as [| | tab | ms]; cbn [providersStep].
  - unfold AddProviders.nextClick.
    destruct (negb (isFeatureNameDisabled AddProviders.Chat (AddProviders.settingsState s)));
      apply setErrorMessage_matches; exact H.
  - exact H.
  - unfold AddProviders.tabClick. apply setErrorMessage_matches. exact H.
  - apply advance_matches; [lia | exact H].
Qed.

Lemma providersRun_matches {S : Type}
    (isFeatureNameDisabled : AddProviders.FeatureName -> S -> bool)
    (evs : list ProvidersEvent) (s : AddProviders.State S) :
  timeoutMatchesMessage s -> timeoutMatchesMessage (providersRun isFeatureNameDisabled evs s).
Proof.
  revert s. induction evs as [| ev evs IH]; intros s H; [exact H |].
  cbn [providersRun fold_left]. apply IH. apply providersStep_matches. exact H.
Qed.

Lemma advance_5000_dismisses {S : Type} (s : AddProviders.State S) :
  timeoutMatchesMessage s ->
  AddProviders.truthy (AddProviders.errorMessage (AddProviders.advance 5000 s)) = false.
Proof.
  intros H. unfold AddProviders.advance. unfold timeoutMatchesMessage in H.
  destruct (AddProviders.timeoutId s) as [d |].
  - destruct H as [Hm Hd].
    replace (d <=? AddProviders.now s + 5000) with true by (symmetry; apply Z.leb_le; lia).
    rewrite setErrorMessage_errorMessage. reflexivity.
  - cbn. exact H.
Qed.

(** X14: whatever was clicked before, and whenever, the timeout of the
    effect is pending exactly while a message shows and is due within 5000
    ms; so after any history 5000 ms without input leave no message on the
    provider-setup screen. *)
Theorem X14_no_message_outlives_five_seconds (SettingsState : Type)
    (isFeatureNameDisabled : AddProviders.FeatureName -> SettingsState -> bool)
    (evs : list ProvidersEvent) (idx : Z) (st : SettingsState) :
  let s := providersRun isFeatureNameDisabled evs (AddProviders.initialState idx st) in
  timeoutMatchesMessage s /\
  AddProviders.truthy (AddProviders.errorMessage (AddProviders.advance 5000 s)) = false.
Proof.
  cbv zeta.
  assert (timeoutMatchesMessage
            (providersRun isFeatureNameDisabled evs (AddProviders.initialState idx st)))
    as H by (apply providersRun_matches; reflexivity).
  split; [exact H | apply advance_5000_dismisses; exact H].
Qed.

(** X15: a click on a tab selects it, dismisses the message at once and
    cancels its timeout, and does not move the page. *)
Theorem X15_tab_click_dismisses_message (SettingsState : Type)
    (tab : AddProviders.TabName) (s : AddProviders.State SettingsState) :
  timeoutMatchesMessage s ->
  let s' := AddProviders.tabClick tab s in
  AddProviders.currentTab s' = tab /\
  AddProviders.errorMessage s' = None /\
  AddProviders.timeoutId s' = None /\
  AddProviders.pageIndex s' = AddProviders.pageIndex s.
Proof.
  intros H s'. subst s'. unfold AddProviders.tabClick.
  split; [| split; [apply setErrorMessage_errorMessage | split]].
  - unfold AddProviders.setErrorMessage.
    destruct (AddProviders.sameMessage _ _); reflexivity.
  - unfold AddProviders.setErrorMessage.
    destruct (AddProviders.sameMessage _ _) eqn:E; [| reflexivity].
    apply sameMessage_spec in E. cbn in E.
    unfold timeoutMatchesMessage in H. cbn.
    destruct (AddProviders.timeoutId s); [| reflexivity].
    destruct H as [Hm _]. rewrite E in Hm. discriminate.
  - rewrite setErrorMessage_pageIndex. reflexivity.
Qed.

Lemma X15_tab_click_dismisses_message_witness :
  let s := AddProviders.nextClick chatMissing (AddProviders.initialState 2 true) in
  let s' := AddProviders.tabClick AddProviders.Local s in
  AddProviders.errorMessage s = Some AddProviders.errorText /\
  AddProviders.errorMessage s' = None /\ AddProviders.timeoutId s' = None.
Proof.
  cbv zeta.
  assert (timeoutMatchesMessage
            (AddProviders.nextClick chatMissing (AddProviders.initialState 2 true))) as H.
  { split; [reflexivity | cbn; lia]. }
  pose proof (X15_tab_click_dismisses_message bool AddProviders.Local _ H) as Hx.
  cbv zeta in Hx. destruct Hx as (_ & He & Ht & _).
  split; [reflexivity |]. split; [exact He | exact Ht].
Defined.

(** ** Who changes the flow type *)


